(** * DB2 data source: configuration holders and their protobuf envelope

    A shallow embedding of
    [sdk/python/feast/infra/offline_stores/contrib/db2_offline_store/db2_source.py]:
    the holders [DB2Source], [DB2Options] and [SavedDatasetDB2Storage], the
    JSON text they put into the custom-options envelope and read back from
    it, and the metadata query.

    - A Python object is a value of [pyval], a [str] the list of its code
      points, a [bytes] the list of its octets; an exception is the [Raise]
      branch of [result].
    - [json.dumps], [json.loads], [str.encode] and [bytes.decode] are
      written out after the CPython library, for the default arguments the
      file calls them with.
    - What the file imports from the rest of the package, or asks of the
      interpreter, and does not define is a class of parameters:
      [PyRuntime], [DataSourceBase], [Db2Driver].  The statements hold for
      every instance; the instances at the end of the definitions serve to
      run them. *)

From Stdlib Require Import ZArith List Bool Lia String Ascii.
Import ListNotations.
Open Scope Z_scope.

(** ** Strings, exceptions *)

(** A Python [str]: its code points, each in [0 .. 0x10FFFF]. *)
Definition pystr := list Z.

(** A [bytes] object: its octets, each in [0 .. 255]. *)
Definition pybytes := list Z.

(** An ASCII literal of the source, as a [str]. *)
Definition lit (s : string) : pystr :=
  map (fun a => Z.of_N (N_of_ascii a)) (list_ascii_of_string s).

Definition wf_char (c : Z) : Prop := 0 <= c <= 0x10FFFF.
Definition wf_str (s : pystr) : Prop := Forall wf_char s.

Fixpoint str_eqb (a b : pystr) : bool :=
  match a, b with
  | [], [] => true
  | x :: a', y :: b' => (x =? y) && str_eqb a' b'
  | _, _ => false
  end.

(** The exceptions that can leave the file.  [RecursionError] is what the
    scanner below raises when its fuel is used up, which [json_loads_fuel]
    shows it never is; [DriverError] is an error of the database driver. *)
Inductive exn : Type :=
| JSONDecodeError
| UnicodeDecodeError
| UnicodeEncodeError
| KeyError (key : pystr)
| TypeError
| AssertionError
| DataSourceNoNameException
| RecursionError
| DriverError (code : Z).

(** The outcome of a call: a value, or an exception raised. *)
Inductive result (A : Type) : Type :=
| Ok (a : A)
| Raise (e : exn).
Arguments Ok {A} a.
Arguments Raise {A} e.

Definition bind {A B} (r : result A) (k : A -> result B) : result B :=
  match r with
  | Ok a => k a
  | Raise e => Raise e
  end.

Declare Scope py_scope.
Delimit Scope py_scope with py.
Notation "x <- c ;; k" := (bind c (fun x => k))
  (at level 61, c at next level, right associativity) : py_scope.
Notation "' p <- c ;; k" := (bind c (fun x => match x with p => k end))
  (at level 61, p pattern, c at next level, right associativity) : py_scope.
Open Scope py_scope.

(** ** json.encoder: strings *)

Definition hexdigit (d : Z) : Z := if d <? 10 then 48 + d else 87 + d.

(** ['{0:04x}'.format(n)], for the [n < 0x10000] it is called with. *)
Definition format_04x (n : Z) : pystr :=
  [hexdigit (n / 4096 mod 16); hexdigit (n / 256 mod 16);
   hexdigit (n / 16 mod 16); hexdigit (n mod 16)].

(** [replace] of [py_encode_basestring_ascii]: the text put in place of one
    character.  [ESCAPE_ASCII] leaves the printable ASCII characters other
    than the quote and the backslash alone. *)
Definition escape_char (c : Z) : pystr :=
  if c =? 92 then [92; 92]
  else if c =? 34 then [92; 34]
  else if c =? 8 then [92; 98]
  else if c =? 12 then [92; 102]
  else if c =? 10 then [92; 110]
  else if c =? 13 then [92; 114]
  else if c =? 9 then [92; 116]
  else if (32 <=? c) && (c <=? 126) then [c]
  else if c <? 0x10000 then 92 :: 117 :: format_04x c
  else
    let n := c - 0x10000 in
    let s1 := Z.lor 0xd800 (Z.land (Z.shiftr n 10) 0x3ff) in
    let s2 := Z.lor 0xdc00 (Z.land n 0x3ff) in
    (92 :: 117 :: format_04x s1) ++ (92 :: 117 :: format_04x s2).

Definition escape (s : pystr) : pystr := flat_map escape_char s.

Definition encode_basestring_ascii (s : pystr) : pystr :=
  34 :: escape s ++ [34].

(** ** json.decoder: strings *)

Definition hexval (c : Z) : option Z :=
  if (48 <=? c) && (c <=? 57) then Some (c - 48)
  else if (97 <=? c) && (c <=? 102) then Some (c - 87)
  else if (65 <=? c) && (c <=? 70) then Some (c - 55)
  else None.

Definition decode_uXXXX (a b c d : Z) : option Z :=
  match hexval a, hexval b, hexval c, hexval d with
  | Some x, Some y, Some z, Some w => Some (((x * 16 + y) * 16 + z) * 16 + w)
  | _, _, _, _ => None
  end.

(** The [BACKSLASH] table. *)
Definition backslash (esc : Z) : option Z :=
  if esc =? 34 then Some 34
  else if esc =? 92 then Some 92
  else if esc =? 47 then Some 47
  else if esc =? 98 then Some 8
  else if esc =? 102 then Some 12
  else if esc =? 110 then Some 10
  else if esc =? 114 then Some 13
  else if esc =? 116 then Some 9
  else None.

Definition is_high_surrogate (c : Z) : bool := (0xd800 <=? c) && (c <=? 0xdbff).
Definition is_low_surrogate (c : Z) : bool := (0xdc00 <=? c) && (c <=? 0xdfff).

Definition join_pair (uni uni2 : Z) : Z :=
  0x10000 + Z.lor (Z.shiftl (uni - 0xd800) 10) (uni2 - 0xdc00).

Definition append_chr (c : Z) (r : result (pystr * pystr)) : result (pystr * pystr) :=
  '(chunks, rest) <- r ;; Ok (c :: chunks, rest).

(** [scanstring(s, end)] in strict mode, entered after the opening quote:
    the decoded string and the text after the closing quote. *)
Fixpoint scanstring (s : pystr) : result (pystr * pystr) :=
  match s with
  | [] => Raise JSONDecodeError
  | c :: s1 =>
    if c =? 34 then Ok ([], s1)
    else if c =? 92 then
      match s1 with
      | [] => Raise JSONDecodeError
      | esc :: s2 =>
        if esc =? 117 then
          match s2 with
          | h1 :: h2 :: h3 :: h4 :: s3 =>
            match decode_uXXXX h1 h2 h3 h4 with
            | None => Raise JSONDecodeError
            | Some uni =>
              if is_high_surrogate uni then
                match s3 with
                | b :: u :: s4 =>
                  if (b =? 92) && (u =? 117) then
                    match s4 with
                    | k1 :: k2 :: k3 :: k4 :: s5 =>
                      match decode_uXXXX k1 k2 k3 k4 with
                      | None => Raise JSONDecodeError
                      | Some uni2 =>
                        if is_low_surrogate uni2
                        then append_chr (join_pair uni uni2) (scanstring s5)
                        else append_chr uni (scanstring s3)
                      end
                    | _ => Raise JSONDecodeError
                    end
                  else append_chr uni (scanstring s3)
                | _ => append_chr uni (scanstring s3)
                end
              else append_chr uni (scanstring s3)
            end
          | _ => Raise JSONDecodeError
          end
        else
          match backslash esc with
          | Some ch => append_chr ch (scanstring s2)
          | None => Raise JSONDecodeError
          end
      end
    else if c <? 32 then Raise JSONDecodeError
    else append_chr c (scanstring s1)
  end.

(** What a string becomes when it is written by [encode_basestring_ascii]
    and read back by [scanstring]: a high surrogate directly followed by a
    low one comes back as the single character they encode. *)
Fixpoint join_surrogates (s : pystr) : pystr :=
  match s with
  | [] => []
  | c :: t =>
    match t with
    | [] => [c]
    | d :: s' =>
      if is_high_surrogate c && is_low_surrogate d
      then join_pair c d :: join_surrogates s'
      else c :: join_surrogates t
    end
  end.

(** No high surrogate is directly followed by a low surrogate. *)
Fixpoint pair_free (s : pystr) : bool :=
  match s with
  | [] => true
  | c :: t =>
    match t with
    | [] => true
    | d :: _ => negb (is_high_surrogate c && is_low_surrogate d) && pair_free t
    end
  end.

(** The four forms [escape_char] writes: the character itself, a two
    character escape, one [\uXXXX] escape, or the two escapes of a surrogate
    pair. *)
Inductive escape_shape (c : Z) : pystr -> Prop :=
| shape_plain :
    32 <= c <= 126 -> c <> 34 -> c <> 92 -> escape_shape c [c]
| shape_short e :
    e <> 117 -> backslash e = Some c -> 0 <= c <= 92 -> escape_shape c [92; e]
| shape_u :
    0 <= c < 0x10000 -> escape_shape c (92 :: 117 :: format_04x c)
| shape_pair :
    0x10000 <= c <= 0x10FFFF ->
    escape_shape c
      ((92 :: 117 :: format_04x (0xd800 + (c - 0x10000) / 1024))
         ++ 92 :: 117 :: format_04x (0xdc00 + (c - 0x10000) mod 1024)).

(** The characters the encoder writes. *)
Definition ascii_char (c : Z) : Prop := 0 <= c < 128.
Definition ascii_str (s : pystr) : Prop := Forall ascii_char s.

(** ** Python values *)

#[local] Set Warnings "-register-all".

(** The values [json.loads] can produce, over the interpreter's floats [F].
    A [dict] keeps its keys, which are strings here, in insertion order. *)
Inductive pyval (F : Type) : Type :=
| PNone
| PBool (b : bool)
| PInt (z : Z)
| PFloat (f : F)
| PStr (s : pystr)
| PList (l : list (pyval F))
| PDict (d : list (pystr * pyval F)).
Arguments PNone {F}.
Arguments PBool {F} b.
Arguments PInt {F} z.
Arguments PFloat {F} f.
Arguments PStr {F} s.
Arguments PList {F} l.
Arguments PDict {F} d.

(** What the file asks of the interpreter and cannot be read off the
    source: binary floating point, and [==] and [str()] on values that are
    not strings. *)
Class PyRuntime : Type := {
  pyfloat : Type;
  (** [float(text)] *)
  float_of_literal : pystr -> pyfloat;
  (** [floatstr] of [json.encoder]: [float.__repr__], [NaN], [Infinity] *)
  floatstr : pyfloat -> pystr;
  (** [bool(f)] *)
  float_bool : pyfloat -> bool;
  (** [a == b] when [a] and [b] are not both strings *)
  value_eq : pyval pyfloat -> pyval pyfloat -> bool;
  (** [str(v)] when [v] is not a string *)
  value_str : pyval pyfloat -> pystr
}.

Section Python.
Context {RT : PyRuntime}.

Definition value : Type := pyval pyfloat.

(** [bool(v)] *)
Definition truthy (v : value) : bool :=
  match v with
  | PNone => false
  | PBool b => b
  | PInt z => negb (z =? 0)
  | PFloat f => float_bool f
  | PStr s => match s with [] => false | _ => true end
  | PList l => match l with [] => false | _ => true end
  | PDict d => match d with [] => false | _ => true end
  end.

(** [x or y] *)
Definition py_or (x y : value) : value := if truthy x then x else y.

(** [a == b] *)
Definition py_eq (a b : value) : bool :=
  match a, b with
  | PStr s, PStr t => str_eqb s t
  | PStr _, _ => false
  | _, PStr _ => false
  | _, _ => value_eq a b
  end.

(** [f"{v}"] *)
Definition py_format (v : value) : pystr :=
  match v with
  | PStr s => s
  | _ => value_str v
  end.

(** An argument annotated [Optional[str]], as a value. *)
Definition of_optional (o : option pystr) : value :=
  match o with
  | Some s => PStr s
  | None => PNone
  end.

(** [d[key] = v] *)
Fixpoint dict_set (key : pystr) (v : value) (d : list (pystr * value))
  : list (pystr * value) :=
  match d with
  | [] => [(key, v)]
  | (k, w) :: d' =>
    if str_eqb k key then (k, v) :: d' else (k, w) :: dict_set key v d'
  end.

Fixpoint dict_get (key : pystr) (d : list (pystr * value)) : option value :=
  match d with
  | [] => None
  | (k, w) :: d' => if str_eqb k key then Some w else dict_get key d'
  end.

(** [obj[key]] with a string key: a [dict] looks the key up, every other
    value refuses the subscript. *)
Definition getitem (obj : value) (key : pystr) : result value :=
  match obj with
  | PDict d =>
    match dict_get key d with
    | Some v => Ok v
    | None => Raise (KeyError key)
    end
  | _ => Raise TypeError
  end.

(** ** json.dumps *)

Fixpoint uint_digits (d : Decimal.uint) : pystr :=
  match d with
  | Decimal.Nil => []
  | Decimal.D0 d' => 48 :: uint_digits d'
  | Decimal.D1 d' => 49 :: uint_digits d'
  | Decimal.D2 d' => 50 :: uint_digits d'
  | Decimal.D3 d' => 51 :: uint_digits d'
  | Decimal.D4 d' => 52 :: uint_digits d'
  | Decimal.D5 d' => 53 :: uint_digits d'
  | Decimal.D6 d' => 54 :: uint_digits d'
  | Decimal.D7 d' => 55 :: uint_digits d'
  | Decimal.D8 d' => 56 :: uint_digits d'
  | Decimal.D9 d' => 57 :: uint_digits d'
  end.

(** [int.__repr__] *)
Definition int_repr (z : Z) : pystr :=
  match Z.to_int z with
  | Decimal.Pos d => uint_digits d
  | Decimal.Neg d => 45 :: uint_digits d
  end.

(** [sep.join(chunks)] *)
Fixpoint join (sep : pystr) (chunks : list pystr) : pystr :=
  match chunks with
  | [] => []
  | [c] => c
  | c :: rest => c ++ sep ++ join sep rest
  end.

(** [json.dumps(v)] with the default encoder: ASCII only, [", "] between
    items and [": "] after a key. *)
Fixpoint json_dumps (v : value) : pystr :=
  match v with
  | PNone => lit "null"
  | PBool true => lit "true"
  | PBool false => lit "false"
  | PInt z => int_repr z
  | PFloat f => floatstr f
  | PStr s => encode_basestring_ascii s
  | PList l => lit "[" ++ join (lit ", ") (map json_dumps l) ++ lit "]"
  | PDict d =>
    lit "{"
    ++ join (lit ", ")
         (map (fun kv => encode_basestring_ascii (fst kv) ++ lit ": "
                         ++ json_dumps (snd kv)) d)
    ++ lit "}"
  end.

(** ** json.loads *)

Definition is_ws (c : Z) : bool :=
  (c =? 32) || (c =? 9) || (c =? 10) || (c =? 13).

Fixpoint skip_ws (s : pystr) : pystr :=
  match s with
  | c :: s' => if is_ws c then skip_ws s' else s
  | [] => []
  end.

Fixpoint strip_prefix (p s : pystr) : option pystr :=
  match p, s with
  | [], _ => Some s
  | a :: p', b :: s' => if a =? b then strip_prefix p' s' else None
  | _ :: _, [] => None
  end.

Definition is_digit (c : Z) : bool := (48 <=? c) && (c <=? 57).

Fixpoint span_digits (s : pystr) : pystr * pystr :=
  match s with
  | c :: s' =>
    if is_digit c
    then let (ds, rest) := span_digits s' in (c :: ds, rest)
    else ([], s)
  | [] => ([], [])
  end.

(** The three groups of [NUMBER_RE]: an optional minus sign and either a
    single zero or a digit from 1 to 9 with more digits; optionally a dot
    with digits; optionally an exponent mark, a sign and digits. *)
Definition match_integer (s : pystr) : option (pystr * pystr) :=
  let (sign, s0) :=
    match s with
    | c :: t => if c =? 45 then ([45], t) else ([], s)
    | [] => ([], s)
    end in
  match s0 with
  | c :: t =>
    if c =? 48 then Some (sign ++ [48], t)
    else if is_digit c
    then let (ds, rest) := span_digits t in Some (sign ++ c :: ds, rest)
    else None
  | [] => None
  end.

Definition match_frac (s : pystr) : pystr * pystr :=
  match s with
  | c :: t =>
    if c =? 46 then
      match span_digits t with
      | ([], _) => ([], s)
      | (ds, rest) => (46 :: ds, rest)
      end
    else ([], s)
  | [] => ([], s)
  end.

Definition match_exp (s : pystr) : pystr * pystr :=
  match s with
  | e :: t =>
    if (e =? 101) || (e =? 69) then
      let (sign, t') :=
        match t with
        | c :: t1 => if (c =? 45) || (c =? 43) then ([c], t1) else ([], t)
        | [] => ([], t)
        end in
      match span_digits t' with
      | ([], _) => ([], s)
      | (ds, rest) => (e :: sign ++ ds, rest)
      end
    else ([], s)
  | [] => ([], s)
  end.

Definition match_number (s : pystr) : option (pystr * pystr * pystr * pystr) :=
  match match_integer s with
  | None => None
  | Some (integer, s1) =>
    let (frac, s2) := match_frac s1 in
    let (exp, s3) := match_exp s2 in
    Some (integer, frac, exp, s3)
  end.

(** [int(text)] on a text matched by the integer group. *)
Definition int_of_literal (s : pystr) : Z :=
  let digits := fold_left (fun acc c => acc * 10 + (c - 48)) in
  match s with
  | c :: t => if c =? 45 then - digits t 0 else digits s 0
  | [] => 0
  end.

Definition nonempty (s : pystr) : bool :=
  match s with
  | [] => false
  | _ => true
  end.

(** [JSONObject], entered after the opening brace. *)
Definition JSONObject
    (pairs : pystr -> list (pystr * value) -> result (value * pystr))
    (s : pystr) : result (value * pystr) :=
  match s with
  | c :: s1 =>
    if c =? 34 then pairs s1 []
    else
      match skip_ws s with
      | c' :: s1' =>
        if c' =? 125 then Ok (PDict [], s1')
        else if c' =? 34 then pairs s1' []
        else Raise JSONDecodeError
      | [] => Raise JSONDecodeError
      end
  | [] => Raise JSONDecodeError
  end.

(** [JSONArray], entered after the opening bracket. *)
Definition JSONArray
    (items : pystr -> list value -> result (value * pystr))
    (s : pystr) : result (value * pystr) :=
  match skip_ws s with
  | c :: s1 => if c =? 93 then Ok (PList [], s1) else items (skip_ws s) []
  | [] => Raise JSONDecodeError
  end.

(** [_scan_once]: one value at the head of [s]. *)
Definition scan_value
    (pairs : pystr -> list (pystr * value) -> result (value * pystr))
    (items : pystr -> list value -> result (value * pystr))
    (s : pystr) : result (value * pystr) :=
  match s with
  | [] => Raise JSONDecodeError
  | c :: s1 =>
    if c =? 34 then '(str, rest) <- scanstring s1 ;; Ok (PStr str, rest)
    else if c =? 123 then JSONObject pairs s1
    else if c =? 91 then JSONArray items s1
    else
      match strip_prefix (lit "null") s with
      | Some rest => Ok (PNone, rest)
      | None =>
      match strip_prefix (lit "true") s with
      | Some rest => Ok (PBool true, rest)
      | None =>
      match strip_prefix (lit "false") s with
      | Some rest => Ok (PBool false, rest)
      | None =>
      match match_number s with
      | Some (integer, frac, exp, rest) =>
        if nonempty frac || nonempty exp
        then Ok (PFloat (float_of_literal (integer ++ frac ++ exp)), rest)
        else Ok (PInt (int_of_literal integer), rest)
      | None =>
      match strip_prefix (lit "NaN") s with
      | Some rest => Ok (PFloat (float_of_literal (lit "NaN")), rest)
      | None =>
      match strip_prefix (lit "Infinity") s with
      | Some rest => Ok (PFloat (float_of_literal (lit "Infinity")), rest)
      | None =>
      match strip_prefix (lit "-Infinity") s with
      | Some rest => Ok (PFloat (float_of_literal (lit "-Infinity")), rest)
      | None => Raise JSONDecodeError
      end end end end end end end
  end.

(** One turn of the loop of [JSONObject], entered after the opening quote of
    a key: the key, the colon, the value, then the closing brace or a comma
    and the next key. *)
Definition object_step
    (scan : pystr -> result (value * pystr))
    (pairs : pystr -> list (pystr * value) -> result (value * pystr))
    (s : pystr) (acc : list (pystr * value)) : result (value * pystr) :=
  '(key, s1) <- scanstring s ;;
  match skip_ws s1 with
  | c :: s2 =>
    if c =? 58 then
      '(v, s3) <- scan (skip_ws s2) ;;
      let acc' := dict_set key v acc in
      match skip_ws s3 with
      | c' :: s4 =>
        if c' =? 125 then Ok (PDict acc', s4)
        else if c' =? 44 then
          match skip_ws s4 with
          | q :: s5 => if q =? 34 then pairs s5 acc' else Raise JSONDecodeError
          | [] => Raise JSONDecodeError
          end
        else Raise JSONDecodeError
      | [] => Raise JSONDecodeError
      end
    else Raise JSONDecodeError
  | [] => Raise JSONDecodeError
  end.

(** One turn of the loop of [JSONArray]: a value, then the closing bracket
    or a comma. *)
Definition array_step
    (scan : pystr -> result (value * pystr))
    (items : pystr -> list value -> result (value * pystr))
    (s : pystr) (acc : list value) : result (value * pystr) :=
  '(v, s1) <- scan s ;;
  let acc' := acc ++ [v] in
  match skip_ws s1 with
  | c :: s2 =>
    if c =? 93 then Ok (PList acc', s2)
    else if c =? 44 then items (skip_ws s2) acc'
    else Raise JSONDecodeError
  | [] => Raise JSONDecodeError
  end.

(** The scanner, its calls counted down from [fuel]. *)
Fixpoint scan_once (fuel : nat) (s : pystr) {struct fuel}
  : result (value * pystr) :=
  match fuel with
  | O => Raise RecursionError
  | S n => scan_value (object_loop n) (array_loop n) s
  end
with object_loop (fuel : nat) (s : pystr) (acc : list (pystr * value))
    {struct fuel} : result (value * pystr) :=
  match fuel with
  | O => Raise RecursionError
  | S n => object_step (scan_once n) (object_loop n) s acc
  end
with array_loop (fuel : nat) (s : pystr) (acc : list value) {struct fuel}
  : result (value * pystr) :=
  match fuel with
  | O => Raise RecursionError
  | S n => array_step (scan_once n) (array_loop n) s acc
  end.

(** [json.loads(s)] for a [str]: no byte order mark, one value between
    optional white space, nothing after it.  The scanner is given fuel for
    twice the length of [s], which is enough for every text
    ([scanner_fuel]); the recursion limit of the interpreter, which a deeply
    nested text can reach, is left out. *)
Definition json_loads (s : pystr) : result value :=
  match s with
  | c :: _ =>
    if c =? 0xfeff then Raise JSONDecodeError
    else
      '(obj, rest) <- scan_once (2 * List.length s + 2) (skip_ws s) ;;
      match skip_ws rest with
      | [] => Ok obj
      | _ => Raise JSONDecodeError
      end
  | [] => Raise JSONDecodeError
  end.

(** A scanner step either raises something other than [RecursionError] or
    leaves less text than it was given. *)
Definition consumes {A : Type} (s : pystr) (r : result (A * pystr)) : Prop :=
  match r with
  | Ok (_, rest) => (List.length rest < List.length s)%nat
  | Raise e => e <> RecursionError
  end.

(** ** UTF-8 *)

Definition is_cont (b : Z) : bool := (0x80 <=? b) && (b <=? 0xBF).
Definition in_range (lo hi b : Z) : bool := (lo <=? b) && (b <=? hi).

Definition append_code (c : Z) (r : result pystr) : result pystr :=
  s <- r ;; Ok (c :: s).

(** [bytes.decode("utf8")]: strict, so no overlong form, no surrogate and
    nothing above [0x10FFFF]. *)
Fixpoint utf8_decode (b : pybytes) : result pystr :=
  match b with
  | [] => Ok []
  | b0 :: r0 =>
    if in_range 0 0x7F b0 then append_code b0 (utf8_decode r0)
    else if in_range 0xC2 0xDF b0 then
      match r0 with
      | b1 :: r1 =>
        if is_cont b1
        then append_code
               (Z.lor (Z.shiftl (Z.land b0 0x1F) 6) (Z.land b1 0x3F))
               (utf8_decode r1)
        else Raise UnicodeDecodeError
      | _ => Raise UnicodeDecodeError
      end
    else if in_range 0xE0 0xEF b0 then
      match r0 with
      | b1 :: b2 :: r2 =>
        if in_range (if b0 =? 0xE0 then 0xA0 else 0x80)
                    (if b0 =? 0xED then 0x9F else 0xBF) b1
           && is_cont b2
        then append_code
               (Z.lor (Z.shiftl (Z.land b0 0x0F) 12)
                  (Z.lor (Z.shiftl (Z.land b1 0x3F) 6) (Z.land b2 0x3F)))
               (utf8_decode r2)
        else Raise UnicodeDecodeError
      | _ => Raise UnicodeDecodeError
      end
    else if in_range 0xF0 0xF4 b0 then
      match r0 with
      | b1 :: b2 :: b3 :: r3 =>
        if in_range (if b0 =? 0xF0 then 0x90 else 0x80)
                    (if b0 =? 0xF4 then 0x8F else 0xBF) b1
           && is_cont b2 && is_cont b3
        then append_code
               (Z.lor (Z.shiftl (Z.land b0 0x07) 18)
                  (Z.lor (Z.shiftl (Z.land b1 0x3F) 12)
                     (Z.lor (Z.shiftl (Z.land b2 0x3F) 6) (Z.land b3 0x3F))))
               (utf8_decode r3)
        else Raise UnicodeDecodeError
      | _ => Raise UnicodeDecodeError
      end
    else Raise UnicodeDecodeError
  end.

Definition append_bytes (bs : pybytes) (r : result pybytes) : result pybytes :=
  s <- r ;; Ok (bs ++ s).

(** [str.encode()]: UTF-8; a surrogate has no encoding. *)
Fixpoint utf8_encode (s : pystr) : result pybytes :=
  match s with
  | [] => Ok []
  | c :: s' =>
    if c <? 0x80 then append_bytes [c] (utf8_encode s')
    else if c <? 0x800 then
      append_bytes
        [Z.lor 0xC0 (Z.shiftr c 6); Z.lor 0x80 (Z.land c 0x3F)]
        (utf8_encode s')
    else if in_range 0xD800 0xDFFF c then Raise UnicodeEncodeError
    else if c <? 0x10000 then
      append_bytes
        [Z.lor 0xE0 (Z.shiftr c 12);
         Z.lor 0x80 (Z.land (Z.shiftr c 6) 0x3F);
         Z.lor 0x80 (Z.land c 0x3F)]
        (utf8_encode s')
    else
      append_bytes
        [Z.lor 0xF0 (Z.shiftr c 18);
         Z.lor 0x80 (Z.land (Z.shiftr c 12) 0x3F);
         Z.lor 0x80 (Z.land (Z.shiftr c 6) 0x3F);
         Z.lor 0x80 (Z.land c 0x3F)]
        (utf8_encode s')
  end.

(** ** The protobuf envelope *)

(** [DataSourceProto.CustomSourceOptions]: one [bytes] field. *)
Record CustomSourceOptions : Type := {
  configuration : pybytes
}.

(** [SavedDatasetStorageProto]: a [oneof], of which this file uses the
    [custom_storage] member. *)
Inductive SavedDatasetStorageProto : Type :=
| kind_custom_storage (o : CustomSourceOptions)
| kind_other.

(** Reading [storage_proto.custom_storage]: an unset member reads as the
    default message. *)
Definition custom_storage (p : SavedDatasetStorageProto) : CustomSourceOptions :=
  match p with
  | kind_custom_storage o => o
  | kind_other => {| configuration := [] |}
  end.

(** ** DB2Options *)

Record DB2Options : Type := {
  _name : value;
  _query : value;
  _table : value
}.

(** [DB2Options.__init__] *)
Definition DB2Options_init (name query table : value) : DB2Options :=
  {| _name := py_or name (PStr []);
     _query := py_or query (PStr []);
     _table := py_or table (PStr []) |}.

(** [DB2Options.from_proto] *)
Definition DB2Options_from_proto (db2_options_proto : CustomSourceOptions)
  : result DB2Options :=
  text <- utf8_decode (configuration db2_options_proto) ;;
  config <- json_loads text ;;
  name <- getitem config (lit "name") ;;
  query <- getitem config (lit "query") ;;
  table <- getitem config (lit "table") ;;
  Ok (DB2Options_init name query table).

(** The dictionary [to_proto] hands to [json.dumps]. *)
Definition options_dict (self : DB2Options) : value :=
  PDict [(lit "name", _name self);
         (lit "query", _query self);
         (lit "table", _table self)].

(** [DB2Options.to_proto] *)
Definition DB2Options_to_proto (self : DB2Options) : result CustomSourceOptions :=
  bytes <- utf8_encode (json_dumps (options_dict self)) ;;
  Ok {| configuration := bytes |}.

End Python.

(** ** DB2Source *)

(** The base class [feast.data_source.DataSource], which this file extends
    and does not define: its state, its constructor with the keyword
    arguments [DB2Source.__init__] passes, its [__eq__], and the attributes
    [DB2Source.__eq__] reads. *)
Class DataSourceBase {RT : PyRuntime} : Type := {
  DataSource : Type;
  DataSource_init :
    forall (name : pystr)
           (timestamp_field created_timestamp_column : option pystr)
           (field_mapping : option (list (pystr * pystr)))
           (description : option pystr)
           (tags : option (list (pystr * pystr)))
           (owner : option pystr),
      result DataSource;
  DataSource_eq : DataSource -> DataSource -> bool;
  timestamp_field : DataSource -> value;
  created_timestamp_column : DataSource -> value;
  field_mapping : DataSource -> value
}.

Section Source.
Context {RT : PyRuntime} {Base : DataSourceBase}.

Record DB2Source : Type := {
  _db2_options : DB2Options;
  super : DataSource
}.

(** [name or table] on two [Optional[str]]. *)
Definition optional_or (a b : option pystr) : option pystr :=
  match a with
  | Some (_ :: _) => a
  | _ => b
  end.

(** [DB2Source.__init__].  The class is [@typechecked]: the arguments are
    of their annotated types when the body runs. *)
Definition DB2Source_init
    (name query table : option pystr)
    (timestamp_field created_timestamp_column : option pystr)
    (field_mapping : option (list (pystr * pystr)))
    (description : option pystr)
    (tags : option (list (pystr * pystr)))
    (owner : option pystr) : result DB2Source :=
  let db2_options :=
    DB2Options_init (of_optional name) (of_optional query) (of_optional table) in
  match name, table with
  | None, None => Raise DataSourceNoNameException
  | _, _ =>
    match optional_or name table with
    | Some ((_ :: _) as name') =>
      base <- DataSource_init name' timestamp_field created_timestamp_column
                field_mapping description tags owner ;;
      Ok {| _db2_options := db2_options; super := base |}
    | _ => Raise AssertionError
    end
  end.

(** The check [@typechecked] makes of an [Optional[str]] argument. *)
Definition check_optional_str (v : value) : result (option pystr) :=
  match v with
  | PNone => Ok None
  | PStr s => Ok (Some s)
  | _ => Raise TypeError
  end.

(** The call [DB2Source(table=v)], every other argument at its default. *)
Definition DB2Source_of_table (v : value) : result DB2Source :=
  table <- check_optional_str v ;;
  DB2Source_init None None table (Some []) (Some []) None (Some []) None (Some []).

(** The right operand of [==]: a [DB2Source], or anything else. *)
Inductive pyobject : Type :=
| ObjDB2Source (s : DB2Source)
| ObjValue (v : value)
| ObjInstance (class_name : pystr).

(** [DB2Source.__eq__] *)
Definition DB2Source_eq (self : DB2Source) (other : pyobject) : result bool :=
  match other with
  | ObjDB2Source other =>
    Ok (DataSource_eq (super self) (super other)
        && py_eq (_query (_db2_options self)) (_query (_db2_options other))
        && py_eq (timestamp_field (super self)) (timestamp_field (super other))
        && py_eq (created_timestamp_column (super self))
                 (created_timestamp_column (super other))
        && py_eq (field_mapping (super self)) (field_mapping (super other)))
  | _ => Raise TypeError
  end.

(** [DB2Source.get_table_query_string] *)
Definition get_table_query_string (self : DB2Source) : pystr :=
  if truthy (_table (_db2_options self))
  then py_format (_table (_db2_options self))
  else lit "(" ++ py_format (_query (_db2_options self)) ++ lit ")".

(** ** SavedDatasetDB2Storage *)

Record SavedDatasetDB2Storage : Type := {
  db2_options : DB2Options
}.

(** [SavedDatasetDB2Storage.__init__] *)
Definition SavedDatasetDB2Storage_init (table_ref : value)
  : SavedDatasetDB2Storage :=
  {| db2_options := DB2Options_init PNone PNone table_ref |}.

(** [SavedDatasetDB2Storage.from_proto] *)
Definition SavedDatasetDB2Storage_from_proto
    (storage_proto : SavedDatasetStorageProto) : result SavedDatasetDB2Storage :=
  options <- DB2Options_from_proto (custom_storage storage_proto) ;;
  Ok (SavedDatasetDB2Storage_init (_table options)).

(** [SavedDatasetDB2Storage.to_proto] *)
Definition SavedDatasetDB2Storage_to_proto (self : SavedDatasetDB2Storage)
  : result SavedDatasetStorageProto :=
  options <- DB2Options_to_proto (db2_options self) ;;
  Ok (kind_custom_storage options).

(** [SavedDatasetDB2Storage.to_data_source] *)
Definition to_data_source (self : SavedDatasetDB2Storage) : result DB2Source :=
  DB2Source_of_table (_table (db2_options self)).

End Source.

(** ** The metadata query *)

(** An entry of [cursor.description]: [c.name] and [c.type_code]. *)
Record Column : Type := {
  col_name : pystr;
  type_code : Z
}.

(** The database side, which this file calls and does not define:
    [_get_conn] of [feast.infra.utils.db2.connection_utils], what the
    server answers to a statement (the description of its result set, or an
    error), and [pg_type_code_to_pg_type] of [feast.type_map]. *)
Class Db2Driver : Type := {
  offline_store_config : Type;
  connection : Type;
  _get_conn : offline_store_config -> result connection;
  execute : connection -> pystr -> result (list Column);
  pg_type_code_to_pg_type : Z -> result pystr
}.

Section Metadata.
Context {RT : PyRuntime} {Base : DataSourceBase} {Driver : Db2Driver}.

Record RepoConfig : Type := {
  offline_store : offline_store_config
}.

(** A computation that talks to the database: it may raise, and it extends
    the log of the statements sent so far. *)
Definition db (A : Type) : Type := list pystr -> result A * list pystr.

Definition db_ret {A} (a : A) : db A := fun log => (Ok a, log).

Definition db_bind {A B} (m : db A) (k : A -> db B) : db B :=
  fun log =>
    match m log with
    | (Ok a, log') => k a log'
    | (Raise e, log') => (Raise e, log')
    end.

Definition db_connect (cfg : offline_store_config) : db connection :=
  fun log => (_get_conn cfg, log).

(** [cur.execute(sql)], then [cur.description]. *)
Definition db_execute (conn : connection) (sql : pystr) : db (list Column) :=
  fun log => (execute conn sql, log ++ [sql]).

(** [DB2Source.get_table_column_names_and_types].  The generator it returns
    is the list of what its steps produce: a step whose type code
    [pg_type_code_to_pg_type] does not know raises when it is reached. *)
Definition get_table_column_names_and_types
    (self : DB2Source) (config : RepoConfig)
  : db (list (pystr * result pystr)) :=
  db_bind (db_connect (offline_store config)) (fun conn =>
  db_bind (db_execute conn
             (lit "SELECT * FROM (" ++ get_table_query_string self
              ++ lit ") AS sub LIMIT 0")) (fun description =>
  db_ret (map (fun c => (col_name c, pg_type_code_to_pg_type (type_code c)))
              description))).

End Metadata.

(** ** An environment to run the definitions in *)

(** Equality of values by structure. *)
Fixpoint pyval_eqb {F : Type} (feq : F -> F -> bool) (a b : pyval F) : bool :=
  match a, b with
  | PNone, PNone => true
  | PBool x, PBool y => Bool.eqb x y
  | PInt x, PInt y => x =? y
  | PFloat x, PFloat y => feq x y
  | PStr x, PStr y => str_eqb x y
  | PList x, PList y =>
    (fix all2 (x y : list (pyval F)) : bool :=
       match x, y with
       | [], [] => true
       | v :: x', w :: y' => pyval_eqb feq v w && all2 x' y'
       | _, _ => false
       end) x y
  | PDict x, PDict y =>
    (fix all2 (x y : list (pystr * pyval F)) : bool :=
       match x, y with
       | [], [] => true
       | (k, v) :: x', (l, w) :: y' =>
         str_eqb k l && pyval_eqb feq v w && all2 x' y'
       | _, _ => false
       end) x y
  | _, _ => false
  end.

(** An interpreter that keeps a float as the text it was read from. *)
Definition text_runtime : PyRuntime := {|
  pyfloat := pystr;
  float_of_literal := fun text => text;
  floatstr := fun text => text;
  float_bool := nonempty;
  value_eq := pyval_eqb str_eqb;
  value_str := fun _ => lit "<object>"
|}.

(** A base class that keeps the arguments it is constructed with. *)
Record KeptArguments : Type := {
  kept_name : pystr;
  kept_timestamp_field : option pystr;
  kept_created_timestamp_column : option pystr;
  kept_field_mapping : option (list (pystr * pystr));
  kept_description : option pystr;
  kept_tags : option (list (pystr * pystr));
  kept_owner : option pystr
}.

Definition str_dict (d : option (list (pystr * pystr))) : @value text_runtime :=
  match d with
  | Some l => PDict (map (fun kv => (fst kv, PStr (snd kv))) l)
  | None => PDict []
  end.

Definition keeping_base : @DataSourceBase text_runtime := {|
  DataSource := KeptArguments;
  DataSource_init := fun name ts cts fm description tags owner =>
    Ok {| kept_name := name;
          kept_timestamp_field := ts;
          kept_created_timestamp_column := cts;
          kept_field_mapping := fm;
          kept_description := description;
          kept_tags := tags;
          kept_owner := owner |};
  DataSource_eq := fun a b => str_eqb (kept_name a) (kept_name b);
  timestamp_field := fun a => of_optional (kept_timestamp_field a);
  created_timestamp_column := fun a => of_optional (kept_created_timestamp_column a);
  field_mapping := fun a => str_dict (kept_field_mapping a)
|}.

(** A server with one table of two columns, whatever the statement. *)
Definition one_table_driver : Db2Driver := {|
  offline_store_config := unit;
  connection := unit;
  _get_conn := fun _ => Ok tt;
  execute := fun _ _ =>
    Ok [ {| col_name := lit "id"; type_code := 23 |};
         {| col_name := lit "ts"; type_code := 1114 |} ];
  pg_type_code_to_pg_type := fun code =>
    if code =? 23 then Ok (lit "integer")
    else if code =? 1114 then Ok (lit "timestamp without time zone")
    else Raise (KeyError (int_repr code))
|}.

(** Well-formedness of a string that is written out. *)
Ltac concrete_wf :=
  unfold wf_str; cbn;
  repeat (apply Forall_cons; [unfold wf_char; lia|]); apply Forall_nil.


(** ** json.loads on bytes *)

(** A 16 bit and a 32 bit code unit, big or little endian. *)
Definition unit16 (big : bool) (b0 b1 : Z) : Z :=
  if big then b0 * 256 + b1 else b1 * 256 + b0.

Definition unit32 (big : bool) (b0 b1 b2 b3 : Z) : Z :=
  if big then ((b0 * 256 + b1) * 256 + b2) * 256 + b3
  else ((b3 * 256 + b2) * 256 + b1) * 256 + b0.

(** [bytes.decode("utf-8", "surrogatepass")]: as [utf8_decode], and the
    three byte form of a surrogate is let through. *)
Fixpoint utf8_decode_surrogatepass (b : pybytes) : result pystr :=
  match b with
  | [] => Ok []
  | b0 :: r0 =>
    if in_range 0 0x7F b0 then append_code b0 (utf8_decode_surrogatepass r0)
    else if in_range 0xC2 0xDF b0 then
      match r0 with
      | b1 :: r1 =>
        if is_cont b1
        then append_code
               (Z.lor (Z.shiftl (Z.land b0 0x1F) 6) (Z.land b1 0x3F))
               (utf8_decode_surrogatepass r1)
        else Raise UnicodeDecodeError
      | _ => Raise UnicodeDecodeError
      end
    else if in_range 0xE0 0xEF b0 then
      match r0 with
      | b1 :: b2 :: r2 =>
        if in_range (if b0 =? 0xE0 then 0xA0 else 0x80) 0xBF b1 && is_cont b2
        then append_code
               (Z.lor (Z.shiftl (Z.land b0 0x0F) 12)
                  (Z.lor (Z.shiftl (Z.land b1 0x3F) 6) (Z.land b2 0x3F)))
               (utf8_decode_surrogatepass r2)
        else Raise UnicodeDecodeError
      | _ => Raise UnicodeDecodeError
      end
    else if in_range 0xF0 0xF4 b0 then
      match r0 with
      | b1 :: b2 :: b3 :: r3 =>
        if in_range (if b0 =? 0xF0 then 0x90 else 0x80)
                    (if b0 =? 0xF4 then 0x8F else 0xBF) b1
           && is_cont b2 && is_cont b3
        then append_code
               (Z.lor (Z.shiftl (Z.land b0 0x07) 18)
                  (Z.lor (Z.shiftl (Z.land b1 0x3F) 12)
                     (Z.lor (Z.shiftl (Z.land b2 0x3F) 6) (Z.land b3 0x3F))))
               (utf8_decode_surrogatepass r3)
        else Raise UnicodeDecodeError
      | _ => Raise UnicodeDecodeError
      end
    else Raise UnicodeDecodeError
  end.

(** UTF-16 with [surrogatepass]: a high surrogate and the low surrogate
    after it make one character, a surrogate on its own is let through, an
    odd byte at the end is an error. *)
Fixpoint utf16_decode (big : bool) (b : pybytes) : result pystr :=
  match b with
  | [] => Ok []
  | [_] => Raise UnicodeDecodeError
  | b0 :: b1 :: r =>
    let u := unit16 big b0 b1 in
    if is_high_surrogate u then
      match r with
      | c0 :: c1 :: r' =>
        let u2 := unit16 big c0 c1 in
        if is_low_surrogate u2
        then append_code (join_pair u u2) (utf16_decode big r')
        else append_code u (utf16_decode big r)
      | _ => append_code u (utf16_decode big r)
      end
    else append_code u (utf16_decode big r)
  end.

(** UTF-32 with [surrogatepass]: every unit up to [0x10FFFF] is a
    character. *)
Fixpoint utf32_decode (big : bool) (b : pybytes) : result pystr :=
  match b with
  | [] => Ok []
  | b0 :: b1 :: b2 :: b3 :: r =>
    let c := unit32 big b0 b1 b2 b3 in
    if c <=? 0x10FFFF then append_code c (utf32_decode big r)
    else Raise UnicodeDecodeError
  | _ => Raise UnicodeDecodeError
  end.

Inductive encoding : Type :=
| utf_32
| utf_16
| utf_8_sig
| utf_16_be
| utf_16_le
| utf_32_be
| utf_32_le
| utf_8.

Definition startswith (prefix b : pybytes) : bool :=
  match strip_prefix prefix b with
  | Some _ => true
  | None => false
  end.

(** [json.detect_encoding]: a byte order mark, or else where the zero bytes
    of the first character are. *)
Definition detect_encoding (b : pybytes) : encoding :=
  if startswith [0x00; 0x00; 0xFE; 0xFF] b || startswith [0xFF; 0xFE; 0x00; 0x00] b
  then utf_32
  else if startswith [0xFE; 0xFF] b || startswith [0xFF; 0xFE] b then utf_16
  else if startswith [0xEF; 0xBB; 0xBF] b then utf_8_sig
  else
    match b with
    | b0 :: b1 :: b2 :: b3 :: _ =>
      if b0 =? 0 then (if b1 =? 0 then utf_32_be else utf_16_be)
      else if b1 =? 0
      then (if (b2 =? 0) && (b3 =? 0) then utf_32_le else utf_16_le)
      else utf_8
    | [b0; b1] =>
      if b0 =? 0 then utf_16_be
      else if b1 =? 0 then utf_16_le
      else utf_8
    | _ => utf_8
    end.

(** [b.decode(encoding, "surrogatepass")]; the codecs named after a byte
    order mark take the byte order from it and drop it, and are called here
    on bytes that start with one. *)
Definition decode_surrogatepass (enc : encoding) (b : pybytes) : result pystr :=
  match enc with
  | utf_32 => utf32_decode (startswith [0x00; 0x00; 0xFE; 0xFF] b) (skipn 4 b)
  | utf_16 => utf16_decode (startswith [0xFE; 0xFF] b) (skipn 2 b)
  | utf_8_sig =>
    utf8_decode_surrogatepass
      (if startswith [0xEF; 0xBB; 0xBF] b then skipn 3 b else b)
  | utf_16_be => utf16_decode true b
  | utf_16_le => utf16_decode false b
  | utf_32_be => utf32_decode true b
  | utf_32_le => utf32_decode false b
  | utf_8 => utf8_decode_surrogatepass b
  end.

Section Bytes.
Context {RT : PyRuntime}.

(** [JSONDecoder.decode]: one value between optional white space, nothing
    after it. *)
Definition JSONDecoder_decode (s : pystr) : result value :=
  '(obj, rest) <- scan_once (2 * List.length s + 2) (skip_ws s) ;;
  match skip_ws rest with
  | [] => Ok obj
  | _ => Raise JSONDecodeError
  end.

(** [json.loads(b)] for a [bytes]: the text in the encoding detected, then
    the decoder; a decoded text is not checked for a byte order mark. *)
Definition json_loads_bytes (b : pybytes) : result value :=
  s <- decode_surrogatepass (detect_encoding b) b ;;
  JSONDecoder_decode s.

End Bytes.

(** ** DB2Source.from_proto *)

(** [DataSourceProto], the fields the file reads: [custom_options] is a
    member of a [oneof], so it is set or not; a string field holds a string
    and a map field a dictionary of strings. *)
Module DataSourceProto.
Record t : Type := {
  name : pystr;
  field_mapping : list (pystr * pystr);
  custom_options : option CustomSourceOptions;
  timestamp_field : pystr;
  created_timestamp_column : pystr;
  description : pystr;
  tags : list (pystr * pystr);
  owner : pystr
}.
End DataSourceProto.

Section FromProto.
Context {RT : PyRuntime} {Base : DataSourceBase}.

(** The call [DB2Source(name=..., query=..., table=..., ...)] with values
    for the three options: [@typechecked] checks them, then the body runs. *)
Definition DB2Source_call
    (name query table : value)
    (timestamp_field created_timestamp_column : option pystr)
    (field_mapping : option (list (pystr * pystr)))
    (description : option pystr)
    (tags : option (list (pystr * pystr)))
    (owner : option pystr) : result DB2Source :=
  name' <- check_optional_str name ;;
  query' <- check_optional_str query ;;
  table' <- check_optional_str table ;;
  DB2Source_init name' query' table' timestamp_field created_timestamp_column
    field_mapping description tags owner.

(** [DB2Source.from_proto] *)
Definition DB2Source_from_proto (data_source : DataSourceProto.t)
  : result DB2Source :=
  match DataSourceProto.custom_options data_source with
  | None => Raise AssertionError
  | Some options =>
    db2_options <- json_loads_bytes (configuration options) ;;
    name <- getitem db2_options (lit "name") ;;
    query <- getitem db2_options (lit "query") ;;
    table <- getitem db2_options (lit "table") ;;
    DB2Source_call name query table
      (Some (DataSourceProto.timestamp_field data_source))
      (Some (DataSourceProto.created_timestamp_column data_source))
      (Some (DataSourceProto.field_mapping data_source))
      (Some (DataSourceProto.description data_source))
      (Some (DataSourceProto.tags data_source))
      (Some (DataSourceProto.owner data_source))
  end.

End FromProto.

(** ** Predicates of the further properties *)

(** A printable ASCII character. *)
Definition printable (c : Z) : Prop := 32 <= c <= 126.

(** * Proofs *)

(** ** Hexadecimal escapes *)

Lemma hexval_hexdigit d : 0 <= d < 16 -> hexval (hexdigit d) = Some d.
Proof.
  intros Hd. unfold hexval, hexdigit.
  destruct (d <? 10) eqn:E.
  - apply Z.ltb_lt in E.
    replace ((48 <=? 48 + d) && (48 + d <=? 57)) with true
      by (symmetry; apply andb_true_iff; split; apply Z.leb_le; lia).
    f_equal. lia.
  - apply Z.ltb_ge in E.
    replace ((48 <=? 87 + d) && (87 + d <=? 57)) with false
      by (symmetry; apply andb_false_iff; right; apply Z.leb_gt; lia).
    replace ((97 <=? 87 + d) && (87 + d <=? 102)) with true
      by (symmetry; apply andb_true_iff; split; apply Z.leb_le; lia).
    f_equal. lia.
Qed.

Lemma decode_format_04x n :
  0 <= n < 0x10000 ->
  decode_uXXXX (hexdigit (n / 4096 mod 16)) (hexdigit (n / 256 mod 16))
               (hexdigit (n / 16 mod 16)) (hexdigit (n mod 16)) = Some n.
Proof.
  intros Hn. unfold decode_uXXXX.
  rewrite !hexval_hexdigit by (apply Z.mod_pos_bound; lia).
  f_equal. change 0x10000 with 65536 in Hn.
  Z.div_mod_to_equations. lia.
Qed.

(** ** Surrogate arithmetic *)

Lemma land_mul_pow2_small a b k :
  0 <= k -> 0 <= b < 2 ^ k -> Z.land (a * 2 ^ k) b = 0.
Proof.
  intros Hk Hb. apply Z.bits_inj'. intros i Hi.
  rewrite Z.land_spec, Z.bits_0.
  destruct (Z.lt_ge_cases i k) as [Hlt | Hge].
  - rewrite Z.mul_pow2_bits_low by lia. reflexivity.
  - rewrite <- (Z.mod_small b (2 ^ k)) by lia.
    rewrite Z.mod_pow2_bits_high by lia. apply andb_false_r.
Qed.

Lemma lor_mul_pow2_small a b k :
  0 <= k -> 0 <= b < 2 ^ k -> Z.lor (a * 2 ^ k) b = a * 2 ^ k + b.
Proof.
  intros Hk Hb.
  pose proof (land_mul_pow2_small a b k Hk Hb) as Hland.
  rewrite <- Z.lxor_lor by exact Hland.
  symmetry. apply Z.add_nocarry_lxor. exact Hland.
Qed.

Lemma high_half c :
  0x10000 <= c <= 0x10FFFF ->
  Z.lor 0xd800 (Z.land (Z.shiftr (c - 0x10000) 10) 0x3ff)
  = 0xd800 + (c - 0x10000) / 1024.
Proof.
  intros Hc.
  change 0x3ff with (Z.ones 10). rewrite Z.land_ones by lia.
  rewrite Z.shiftr_div_pow2 by lia.
  change (2 ^ 10) with 1024.
  assert (0 <= (c - 0x10000) / 1024 < 1024) as Hq
    by (change 0x10000 with 65536 in *; change 0x10FFFF with 1114111 in *;
        Z.div_mod_to_equations; lia).
  rewrite Z.mod_small by exact Hq.
  change 0xd800 with (54 * 2 ^ 10).
  apply lor_mul_pow2_small; [lia | exact Hq].
Qed.

Lemma low_half c :
  0x10000 <= c <= 0x10FFFF ->
  Z.lor 0xdc00 (Z.land (c - 0x10000) 0x3ff) = 0xdc00 + (c - 0x10000) mod 1024.
Proof.
  intros Hc.
  change 0x3ff with (Z.ones 10). rewrite Z.land_ones by lia.
  change (2 ^ 10) with 1024.
  change 0xdc00 with (55 * 2 ^ 10).
  apply lor_mul_pow2_small; [lia | apply Z.mod_pos_bound; lia].
Qed.

Lemma join_pair_halves c :
  0x10000 <= c <= 0x10FFFF ->
  join_pair (0xd800 + (c - 0x10000) / 1024) (0xdc00 + (c - 0x10000) mod 1024) = c.
Proof.
  intros Hc. unfold join_pair.
  replace (0xd800 + (c - 0x10000) / 1024 - 0xd800) with ((c - 0x10000) / 1024) by lia.
  replace (0xdc00 + (c - 0x10000) mod 1024 - 0xdc00) with ((c - 0x10000) mod 1024) by lia.
  rewrite Z.shiftl_mul_pow2 by lia.
  rewrite lor_mul_pow2_small by (try lia; apply Z.mod_pos_bound; lia).
  change (2 ^ 10) with 1024.
  pose proof (Z.div_mod (c - 0x10000) 1024 ltac:(lia)). lia.
Qed.

(** ** Reading back one escaped character *)

Lemma scanstring_quote r : scanstring (34 :: r) = Ok ([], r).
Proof. reflexivity. Qed.

Lemma scanstring_plain c r :
  32 <= c -> c <> 34 -> c <> 92 ->
  scanstring (c :: r) = append_chr c (scanstring r).
Proof.
  intros H1 H2 H3. simpl.
  destruct (Z.eqb_spec c 34); [contradiction|].
  destruct (Z.eqb_spec c 92); [contradiction|].
  destruct (Z.ltb_spec c 32); [lia|]. reflexivity.
Qed.

Lemma scanstring_short e ch r :
  e <> 117 -> backslash e = Some ch ->
  scanstring (92 :: e :: r) = append_chr ch (scanstring r).
Proof.
  intros H1 H2. simpl.
  destruct (Z.eqb_spec e 117); [contradiction|].
  rewrite H2. reflexivity.
Qed.

(** A [\uXXXX] escape whose value is not a high surrogate stands for itself. *)
Lemma scanstring_u_single n r :
  0 <= n < 0x10000 -> is_high_surrogate n = false ->
  scanstring (92 :: 117 :: format_04x n ++ r) = append_chr n (scanstring r).
Proof.
  intros Hn Hh. unfold format_04x. cbn [app scanstring Z.eqb Pos.eqb].
  rewrite decode_format_04x by exact Hn. rewrite Hh. reflexivity.
Qed.

(** A high surrogate escape not followed by another [\u] escape stands for
    itself. *)
Lemma scanstring_u_high_alone n r :
  0 <= n < 0x10000 ->
  match r with
  | b :: u :: _ => (b =? 92) && (u =? 117) = false
  | _ => True
  end ->
  scanstring (92 :: 117 :: format_04x n ++ r) = append_chr n (scanstring r).
Proof.
  intros Hn Hr. unfold format_04x. cbn [app scanstring Z.eqb Pos.eqb].
  rewrite decode_format_04x by exact Hn.
  destruct (is_high_surrogate n); [|reflexivity].
  destruct r as [|b [|u r']]; try reflexivity.
  rewrite Hr. reflexivity.
Qed.

(** A high surrogate escape followed by a [\u] escape: joined with it when
    that one is a low surrogate. *)
Lemma scanstring_u_pair n m r :
  0 <= n < 0x10000 -> 0 <= m < 0x10000 -> is_high_surrogate n = true ->
  scanstring (92 :: 117 :: format_04x n ++ 92 :: 117 :: format_04x m ++ r)
  = if is_low_surrogate m
    then append_chr (join_pair n m) (scanstring r)
    else append_chr n (scanstring (92 :: 117 :: format_04x m ++ r)).
Proof.
  intros Hn Hm Hh. unfold format_04x. cbn [app scanstring Z.eqb Pos.eqb andb].
  rewrite decode_format_04x by exact Hn. rewrite Hh.
  rewrite decode_format_04x by exact Hm. reflexivity.
Qed.

(** ** Shapes of an escaped character *)

Lemma escape_char_shape c : wf_char c -> escape_shape c (escape_char c).
Proof.
  unfold wf_char, escape_char. intros Hc.
  destruct (Z.eqb_spec c 92) as [->|N92]; [apply shape_short; [lia|reflexivity|lia]|].
  destruct (Z.eqb_spec c 34) as [->|N34]; [apply shape_short; [lia|reflexivity|lia]|].
  destruct (Z.eqb_spec c 8) as [->|N8]; [apply shape_short; [lia|reflexivity|lia]|].
  destruct (Z.eqb_spec c 12) as [->|N12]; [apply shape_short; [lia|reflexivity|lia]|].
  destruct (Z.eqb_spec c 10) as [->|N10]; [apply shape_short; [lia|reflexivity|lia]|].
  destruct (Z.eqb_spec c 13) as [->|N13]; [apply shape_short; [lia|reflexivity|lia]|].
  destruct (Z.eqb_spec c 9) as [->|N9]; [apply shape_short; [lia|reflexivity|lia]|].
  destruct ((32 <=? c) && (c <=? 126)) eqn:E.
  - apply andb_true_iff in E. rewrite !Z.leb_le in E. apply shape_plain; lia.
  - destruct (Z.ltb_spec c 0x10000).
    + apply shape_u. lia.
    + cbv zeta. rewrite high_half, low_half by lia. apply shape_pair. lia.
Qed.

Lemma is_high_false_lt c : c < 0xd800 -> is_high_surrogate c = false.
Proof.
  intros H. unfold is_high_surrogate.
  destruct (Z.leb_spec 0xd800 c); [lia | reflexivity].
Qed.

Lemma halves_range c :
  0x10000 <= c <= 0x10FFFF ->
  0xd800 <= 0xd800 + (c - 0x10000) / 1024 <= 0xdbff
  /\ 0xdc00 <= 0xdc00 + (c - 0x10000) mod 1024 <= 0xdfff.
Proof.
  intros Hc.
  change 0x10000 with 65536 in *; change 0x10FFFF with 1114111 in *.
  change 0xd800 with 55296; change 0xdbff with 56319.
  change 0xdc00 with 56320; change 0xdfff with 57343.
  Z.div_mod_to_equations. lia.
Qed.

Lemma is_high_true_iff c : is_high_surrogate c = true <-> 0xd800 <= c <= 0xdbff.
Proof.
  unfold is_high_surrogate. rewrite andb_true_iff, !Z.leb_le. reflexivity.
Qed.

Lemma is_low_true_iff c : is_low_surrogate c = true <-> 0xdc00 <= c <= 0xdfff.
Proof.
  unfold is_low_surrogate. rewrite andb_true_iff, !Z.leb_le. reflexivity.
Qed.

Lemma is_high_false_iff c : is_high_surrogate c = false <-> ~ (0xd800 <= c <= 0xdbff).
Proof.
  rewrite <- is_high_true_iff. destruct (is_high_surrogate c); intuition congruence.
Qed.

Lemma is_low_false_iff c : is_low_surrogate c = false <-> ~ (0xdc00 <= c <= 0xdfff).
Proof.
  rewrite <- is_low_true_iff. destruct (is_low_surrogate c); intuition congruence.
Qed.

(** A character that is not a high surrogate is read back as itself,
    whatever follows. *)
Lemma scanstring_escape_char c r :
  wf_char c -> is_high_surrogate c = false ->
  scanstring (escape_char c ++ r) = append_chr c (scanstring r).
Proof.
  intros Hc Hh. destruct (escape_char_shape c Hc) as [H1 H2 H3|e He Hb Hr|Hr|Hr].
  - apply scanstring_plain; lia.
  - apply scanstring_short; assumption.
  - cbn [app]. apply scanstring_u_single; assumption.
  - destruct (halves_range c Hr) as [Hhi Hlo].
    rewrite <- app_assoc. cbn [app].
    rewrite scanstring_u_pair
      by (try (apply is_high_true_iff; exact Hhi);
          change 0x10000 with 65536; change 0xd800 with 55296 in *;
          change 0xdbff with 56319 in *; change 0xdc00 with 56320 in *;
          change 0xdfff with 57343 in *; lia).
    replace (is_low_surrogate (0xdc00 + (c - 0x10000) mod 1024)) with true
      by (symmetry; apply is_low_true_iff; exact Hlo).
    rewrite join_pair_halves by exact Hr. reflexivity.
Qed.

(** A high surrogate is read back as itself unless a low surrogate follows
    it, in which case the two come back as one character. *)
Lemma scanstring_escape_high c t r :
  wf_char c -> is_high_surrogate c = true -> wf_str t ->
  scanstring (escape_char c ++ escape t ++ 34 :: r)
  = match t with
    | d :: s' =>
      if is_low_surrogate d
      then append_chr (join_pair c d) (scanstring (escape s' ++ 34 :: r))
      else append_chr c (scanstring (escape t ++ 34 :: r))
    | [] => append_chr c (scanstring (escape t ++ 34 :: r))
    end.
Proof.
  intros Hc Hh Ht.
  pose proof (proj1 (is_high_true_iff c) Hh) as Hrange.
  assert (Hc16 : 0 <= c < 0x10000)
    by (change 0xd800 with 55296 in *; change 0xdbff with 56319 in *;
        change 0x10000 with 65536; lia).
  assert (Hesc : escape_char c = 92 :: 117 :: format_04x c).
  { destruct (escape_char_shape c Hc) as [H1 H2 H3|e He Hb Hr|Hr|Hr];
      try reflexivity;
      change 0xd800 with 55296 in *; change 0xdbff with 56319 in *;
      change 0x10000 with 65536 in *; lia. }
  rewrite Hesc. cbn [app].
  destruct t as [|d s'].
  - cbn [escape flat_map app].
    apply scanstring_u_high_alone; [exact Hc16|].
    destruct r; [exact I | reflexivity].
  - inversion Ht as [|d' s'' Hd Hs']; subst.
    unfold escape. cbn [flat_map]. fold (escape s'). rewrite <- app_assoc.
    destruct (escape_char_shape d Hd) as [H1 H2 H3|e He Hb Hr|Hr|Hr].
    + replace (is_low_surrogate d) with false
        by (symmetry; apply is_low_false_iff; change 0xdc00 with 56320; lia).
      apply scanstring_u_high_alone; [exact Hc16|].
      cbn [app]. destruct (escape s' ++ 34 :: r); [exact I|].
      destruct (Z.eqb_spec d 92); [contradiction | reflexivity].
    + replace (is_low_surrogate d) with false
        by (symmetry; apply is_low_false_iff; change 0xdc00 with 56320; lia).
      apply scanstring_u_high_alone; [exact Hc16|].
      cbn [app]. destruct (Z.eqb_spec e 117); [contradiction | reflexivity].
    + cbn [app]. rewrite scanstring_u_pair by assumption. reflexivity.
    + destruct (halves_range d Hr) as [Hhi Hlo].
      replace (is_low_surrogate d) with false
        by (symmetry; apply is_low_false_iff; change 0xdc00 with 56320;
            change 0xdfff with 57343; change 0x10000 with 65536 in Hr; lia).
      rewrite <- app_assoc. cbn [app].
      rewrite scanstring_u_pair
        by (try assumption;
            change 0x10000 with 65536; change 0xd800 with 55296 in *;
            change 0xdbff with 56319 in *; lia).
      replace (is_low_surrogate (0xd800 + (d - 0x10000) / 1024)) with false
        by (symmetry; apply is_low_false_iff;
            change 0xd800 with 55296 in *; change 0xdbff with 56319 in *;
            change 0xdc00 with 56320; lia).
      reflexivity.
Qed.

(** ** Writing a string and reading it back *)

Lemma scanstring_escape_len n : forall s r,
  (List.length s <= n)%nat -> wf_str s ->
  scanstring (escape s ++ 34 :: r) = Ok (join_surrogates s, r).
Proof.
  induction n as [|n IH]; intros s r Hlen Hs.
  - destruct s; [reflexivity | simpl in Hlen; lia].
  - destruct s as [|c t]; [reflexivity|].
    inversion Hs as [|c' t' Hc Ht]; subst.
    simpl in Hlen.
    unfold escape. cbn [flat_map]. fold (escape t). rewrite <- app_assoc.
    destruct (is_high_surrogate c) eqn:Hh.
    + rewrite scanstring_escape_high by assumption.
      destruct t as [|d s'].
      * reflexivity.
      * inversion Ht as [|d' s'' Hd Hs']; subst. simpl in Hlen.
        cbn [join_surrogates]. rewrite Hh. cbn [andb].
        destruct (is_low_surrogate d).
        -- rewrite IH by (assumption || lia). reflexivity.
        -- rewrite IH by (assumption || (simpl; lia)). reflexivity.
    + rewrite scanstring_escape_char by assumption.
      rewrite IH by (assumption || lia).
      destruct t; cbn [join_surrogates]; rewrite ?Hh; reflexivity.
Qed.

Lemma scanstring_escape s r :
  wf_str s -> scanstring (escape s ++ 34 :: r) = Ok (join_surrogates s, r).
Proof. intros Hs. apply (scanstring_escape_len (List.length s)); [lia | exact Hs]. Qed.

Lemma join_surrogates_pair_free s : pair_free s = true -> join_surrogates s = s.
Proof.
  induction s as [|c t IH]; [reflexivity|].
  destruct t as [|d s']; [reflexivity|].
  intros H. change (negb (is_high_surrogate c && is_low_surrogate d) && pair_free (d :: s') = true) in H.
  apply andb_true_iff in H. destruct H as [H1 H2].
  change (join_surrogates (c :: d :: s'))
    with (if is_high_surrogate c && is_low_surrogate d
          then join_pair c d :: join_surrogates s'
          else c :: join_surrogates (d :: s')).
  apply negb_true_iff in H1. rewrite H1. rewrite IH by exact H2. reflexivity.
Qed.

(** ** The encoder writes ASCII, which UTF-8 leaves alone *)

Lemma hexdigit_ascii d : 0 <= d < 16 -> ascii_char (hexdigit d).
Proof.
  intros Hd. unfold ascii_char, hexdigit. destruct (d <? 10); lia.
Qed.

Lemma format_04x_ascii n : ascii_str (format_04x n).
Proof.
  unfold format_04x.
  repeat constructor; apply hexdigit_ascii; apply Z.mod_pos_bound; lia.
Qed.

Lemma escape_char_ascii c : wf_char c -> ascii_str (escape_char c).
Proof.
  intros Hc. destruct (escape_char_shape c Hc) as [H1 H2 H3|e He Hb Hr|Hr|Hr].
  - repeat constructor; unfold ascii_char; lia.
  - assert (0 <= e < 128).
    { unfold backslash in Hb.
      repeat match type of Hb with
             | (if ?a =? ?b then _ else _) = _ =>
               destruct (Z.eqb_spec a b); [subst; lia|]
             end.
      discriminate. }
    repeat constructor; unfold ascii_char; lia.
  - constructor; [unfold ascii_char; lia|].
    constructor; [unfold ascii_char; lia|]. apply format_04x_ascii.
  - apply Forall_app. split;
      (constructor; [unfold ascii_char; lia|];
       constructor; [unfold ascii_char; lia|]; apply format_04x_ascii).
Qed.

Lemma escape_ascii s : wf_str s -> ascii_str (escape s).
Proof.
  induction 1 as [|c t Hc Ht IH]; [constructor|].
  unfold escape. cbn [flat_map]. apply Forall_app. split.
  - apply escape_char_ascii. exact Hc.
  - exact IH.
Qed.

Lemma utf8_encode_ascii s : ascii_str s -> utf8_encode s = Ok s.
Proof.
  induction 1 as [|c t Hc Ht IH]; [reflexivity|].
  unfold ascii_char in Hc. cbn [utf8_encode].
  destruct (Z.ltb_spec c 0x80); [|change 0x80 with 128 in *; lia].
  rewrite IH. reflexivity.
Qed.

Lemma utf8_decode_ascii s : ascii_str s -> utf8_decode s = Ok s.
Proof.
  induction 1 as [|c t Hc Ht IH]; [reflexivity|].
  unfold ascii_char in Hc. cbn [utf8_decode].
  replace (in_range 0 0x7F c) with true
    by (symmetry; unfold in_range; apply andb_true_iff; split;
        apply Z.leb_le; change 0x7F with 127; lia).
  rewrite IH. reflexivity.
Qed.

(** ** Reading back the dictionary of [to_proto] *)

Section Scanner.
Context {RT : PyRuntime}.

(** The text [json.dumps] writes for the three string fields. *)
Lemma json_dumps_options n q t :
  json_dumps (options_dict {| _name := PStr n; _query := PStr q; _table := PStr t |})
  = 123 :: 34 :: escape (lit "name") ++ 34 :: 58 :: 32 :: 34 :: escape n
    ++ 34 :: 44 :: 32 :: 34 :: escape (lit "query") ++ 34 :: 58 :: 32 :: 34 :: escape q
    ++ 34 :: 44 :: 32 :: 34 :: escape (lit "table") ++ 34 :: 58 :: 32 :: 34 :: escape t
    ++ 34 :: [125].
Proof.
  unfold options_dict, json_dumps, encode_basestring_ascii.
  cbn [map fst snd join _name _query _table].
  change (lit "{") with [123]. change (lit "}") with [125].
  change (lit ", ") with [44; 32]. change (lit ": ") with [58; 32].
  change (escape (lit "name")) with (lit "name").
  change (escape (lit "query")) with (lit "query").
  change (escape (lit "table")) with (lit "table").
  cbn [app]. repeat (rewrite <- ?app_assoc; cbn [app]; f_equal).
Qed.

Lemma scan_once_object f s :
  scan_once (S f) (123 :: 34 :: s) = object_loop f s [].
Proof. reflexivity. Qed.

Lemma scan_once_string f s :
  scan_once (S f) (34 :: s)
  = ('(str, rest) <- scanstring s ;; Ok (PStr str, rest)).
Proof. reflexivity. Qed.

(** One pair whose value is a string, written the way [json.dumps] writes
    it. *)
Lemma object_loop_pair f k v rest acc :
  wf_str k -> wf_str v ->
  object_loop (S (S f))
    (escape k ++ 34 :: 58 :: 32 :: 34 :: escape v ++ 34 :: rest) acc
  = let acc' := dict_set (join_surrogates k) (PStr (join_surrogates v)) acc in
    match skip_ws rest with
    | c' :: s4 =>
      if c' =? 125 then Ok (PDict acc', s4)
      else if c' =? 44 then
        match skip_ws s4 with
        | q :: s5 =>
          if q =? 34 then object_loop (S f) s5 acc' else Raise JSONDecodeError
        | [] => Raise JSONDecodeError
        end
      else Raise JSONDecodeError
    | [] => Raise JSONDecodeError
    end.
Proof.
  intros Hk Hv.
  change (object_loop (S (S f)) ?s ?a)
    with (object_step (scan_once (S f)) (object_loop (S f)) s a).
  unfold object_step.
  rewrite scanstring_escape by exact Hk.
  cbn [bind skip_ws is_ws Z.eqb Pos.eqb orb].
  rewrite scan_once_string.
  rewrite scanstring_escape by exact Hv.
  reflexivity.
Qed.

Lemma wf_str_name : wf_str (lit "name").
Proof. repeat constructor; unfold wf_char; cbn; lia. Qed.

Lemma wf_str_query : wf_str (lit "query").
Proof. repeat constructor; unfold wf_char; cbn; lia. Qed.

Lemma wf_str_table : wf_str (lit "table").
Proof. repeat constructor; unfold wf_char; cbn; lia. Qed.

(** [json.loads] of what [json.dumps] wrote for three string fields: the
    same three keys, each string with its surrogate pairs joined. *)
Lemma json_loads_dumps_options n q t :
  wf_str n -> wf_str q -> wf_str t ->
  json_loads
    (json_dumps (options_dict {| _name := PStr n; _query := PStr q; _table := PStr t |}))
  = Ok (PDict [(lit "name", PStr (join_surrogates n));
               (lit "query", PStr (join_surrogates q));
               (lit "table", PStr (join_surrogates t))]).
Proof.
  intros Hn Hq Ht. rewrite json_dumps_options.
  unfold json_loads.
  match goal with
  | |- context [scan_once ?fuel _] =>
    assert (exists f, fuel = S (S (S (S (S f))))) as [f ->]
      by (cbn [List.length]; eexists; rewrite Nat.add_comm; cbn [Nat.add Nat.mul];
          rewrite <- plus_n_Sm; reflexivity)
  end.
  cbn [Z.eqb Pos.eqb skip_ws is_ws orb].
  rewrite scan_once_object.
  rewrite object_loop_pair by (exact wf_str_name || assumption).
  cbv zeta. cbn [skip_ws is_ws Z.eqb Pos.eqb orb].
  rewrite object_loop_pair by (exact wf_str_query || assumption).
  cbv zeta. cbn [skip_ws is_ws Z.eqb Pos.eqb orb].
  rewrite object_loop_pair by (exact wf_str_table || assumption).
  cbv zeta. cbn [skip_ws is_ws Z.eqb Pos.eqb orb bind].
  reflexivity.
Qed.

End Scanner.

(** ** The scanner has fuel enough *)

Section Fuel.
Context {RT : PyRuntime}.

Lemma append_chr_consumes c r s s' :
  (List.length s' <= List.length s)%nat ->
  consumes s' r -> consumes s (append_chr c r).
Proof.
  unfold consumes, append_chr. intros Hlen Hr.
  destruct r as [[chunks rest]|e]; cbn [bind]; [lia | exact Hr].
Qed.

Lemma scanstring_consumes_len n : forall s,
  (List.length s <= n)%nat -> consumes s (scanstring s).
Proof.
  induction n as [|n IH]; intros s Hlen.
  - destruct s; [cbn; discriminate | cbn in Hlen; lia].
  - destruct s as [|c s1]; [cbn; discriminate|].
    cbn [scanstring].
    repeat match goal with
           | |- consumes _ (Ok _) => cbn [consumes List.length]; lia
           | |- consumes _ (Raise _) => cbn [consumes]; discriminate
           | |- consumes _ (append_chr _ (scanstring ?tl)) =>
             apply append_chr_consumes with (s' := tl);
             [cbn [List.length]; lia
             | apply IH; cbn [List.length] in *; lia]
           | |- context [match ?l with [] => _ | _ :: _ => _ end] => destruct l
           | |- context [match ?o with Some _ => _ | None => _ end] => destruct o
           | |- context [if ?b then _ else _] => destruct b
           end.
Qed.

Lemma scanstring_consumes s : consumes s (scanstring s).
Proof. apply (scanstring_consumes_len (List.length s)). lia. Qed.

Lemma consumes_longer {A} (s s' : pystr) (r : result (A * pystr)) :
  (List.length s' <= List.length s)%nat -> consumes s' r -> consumes s r.
Proof.
  unfold consumes. destruct r as [[a rest]|e]; [lia | auto].
Qed.

Lemma skip_ws_length s : (List.length (skip_ws s) <= List.length s)%nat.
Proof.
  induction s as [|c s IH]; [reflexivity|].
  cbn [skip_ws]. destruct (is_ws c); cbn [List.length]; lia.
Qed.

Lemma strip_prefix_length p : forall s r,
  strip_prefix p s = Some r ->
  (List.length r + List.length p = List.length s)%nat.
Proof.
  induction p as [|a p IH]; intros s r H.
  - cbn in H. injection H as ->. cbn. lia.
  - destruct s as [|b s]; [discriminate|]. cbn [strip_prefix] in H.
    destruct (a =? b); [|discriminate].
    apply IH in H. cbn [List.length]. lia.
Qed.

Lemma span_digits_length s :
  (List.length (snd (span_digits s)) <= List.length s)%nat.
Proof.
  induction s as [|c s IH]; [reflexivity|].
  cbn [span_digits]. destruct (is_digit c); [|reflexivity].
  destruct (span_digits s) as [ds rest]. cbn [snd List.length] in *. lia.
Qed.

Lemma match_integer_length s i r :
  match_integer s = Some (i, r) -> (List.length r < List.length s)%nat.
Proof.
  unfold match_integer. intros H.
  assert (forall sign s0, (List.length s0 <= List.length s)%nat ->
            match s0 with
            | c :: t =>
              if c =? 48 then Some (sign ++ [48], t)
              else if is_digit c
              then let (ds, rest) := span_digits t in Some (sign ++ c :: ds, rest)
              else None
            | [] => None
            end = Some (i, r) -> (List.length r < List.length s)%nat) as Hbody.
  { intros sign s0 Hlen E. destruct s0 as [|c t]; [discriminate|].
    cbn [List.length] in Hlen.
    destruct (c =? 48); [injection E as _ <-; lia|].
    destruct (is_digit c); [|discriminate].
    pose proof (span_digits_length t) as Hs.
    destruct (span_digits t) as [ds rest]. cbn [snd] in Hs.
    injection E as _ <-. lia. }
  destruct s as [|c t]; [discriminate|].
  revert H. destruct (c =? 45); intros H.
  - apply (Hbody [45] t); [cbn [List.length]; lia | exact H].
  - apply (Hbody [] (c :: t)); [reflexivity | exact H].
Qed.

Lemma match_frac_length s :
  (List.length (snd (match_frac s)) <= List.length s)%nat.
Proof.
  unfold match_frac. destruct s as [|c t]; [reflexivity|].
  destruct (c =? 46); [|reflexivity].
  pose proof (span_digits_length t) as Hs.
  destruct (span_digits t) as [[|d ds] rest]; cbn [snd List.length] in *; lia.
Qed.

Lemma match_exp_length s :
  (List.length (snd (match_exp s)) <= List.length s)%nat.
Proof.
  unfold match_exp. destruct s as [|e t]; [reflexivity|].
  destruct ((e =? 101) || (e =? 69)); [|reflexivity].
  destruct t as [|c t1]; [cbn; lia|].
  destruct ((c =? 45) || (c =? 43)).
  - pose proof (span_digits_length t1) as Hs.
    destruct (span_digits t1) as [[|d ds] rest]; cbn [snd List.length] in *; lia.
  - pose proof (span_digits_length (c :: t1)) as Hs.
    destruct (span_digits (c :: t1)) as [[|d ds] rest];
      cbn [snd List.length] in *; lia.
Qed.

Lemma match_number_length s i f e r :
  match_number s = Some (i, f, e, r) -> (List.length r < List.length s)%nat.
Proof.
  unfold match_number. intros H.
  destruct (match_integer s) as [[i' s1]|] eqn:Hi; [|discriminate].
  apply match_integer_length in Hi.
  pose proof (match_frac_length s1) as Hf.
  destruct (match_frac s1) as [f' s2]. cbn [snd] in Hf.
  pose proof (match_exp_length s2) as He.
  destruct (match_exp s2) as [e' s3]. cbn [snd] in He.
  injection H as _ _ _ <-. lia.
Qed.

Lemma scan_value_consumes pairs items s :
  (forall s' acc, (List.length s' < List.length s)%nat -> consumes s' (pairs s' acc)) ->
  (forall s' acc, (List.length s' < List.length s)%nat -> consumes s' (items s' acc)) ->
  consumes s (scan_value pairs items s).
Proof.
  intros Hpairs Hitems. unfold scan_value.
  destruct s as [|c s1]; [cbn; discriminate|].
  destruct (c =? 34).
  { pose proof (scanstring_consumes s1) as Hs.
    destruct (scanstring s1) as [[str rest]|e]; cbn [bind consumes List.length] in *;
      [lia | exact Hs]. }
  destruct (c =? 123).
  { unfold JSONObject. destruct s1 as [|c1 s2]; [cbn; discriminate|].
    destruct (c1 =? 34).
    - apply consumes_longer with (s' := s2); [cbn [List.length]; lia|].
      apply Hpairs. cbn [List.length]. lia.
    - pose proof (skip_ws_length (c1 :: s2)) as Hws.
      destruct (skip_ws (c1 :: s2)) as [|c' s1']; [cbn; discriminate|].
      cbn [List.length] in Hws.
      destruct (c' =? 125); [cbn [consumes List.length]; lia|].
      destruct (c' =? 34); [|cbn; discriminate].
      apply consumes_longer with (s' := s1'); [cbn [List.length]; lia|].
      apply Hpairs. cbn [List.length]. lia. }
  destruct (c =? 91).
  { unfold JSONArray. pose proof (skip_ws_length s1) as Hws.
    destruct (skip_ws s1) as [|c1 s2]; [cbn; discriminate|].
    cbn [List.length] in Hws.
    destruct (c1 =? 93); [cbn [consumes List.length]; lia|].
    apply consumes_longer with (s' := c1 :: s2); [cbn [List.length]; lia|].
    apply Hitems. cbn [List.length]. lia. }
  repeat match goal with
         | |- context [strip_prefix ?p ?s] =>
           let E := fresh "E" in
           destruct (strip_prefix p s) as [rest|] eqn:E;
           [apply strip_prefix_length in E; cbn [consumes List.length];
            cbn in E; lia|]
         | |- context [match_number ?s] =>
           let E := fresh "E" in
           destruct (match_number s) as [[[[integer frac] exp] rest]|] eqn:E;
           [apply match_number_length in E;
            destruct (nonempty frac || nonempty exp); cbn [consumes]; exact E|]
         end.
  cbn. discriminate.
Qed.

Lemma object_step_consumes scan pairs s acc :
  (forall s', (List.length s' < List.length s)%nat -> consumes s' (scan s')) ->
  (forall s' acc', (List.length s' < List.length s)%nat -> consumes s' (pairs s' acc')) ->
  consumes s (object_step scan pairs s acc).
Proof.
  intros Hscan Hpairs. unfold object_step.
  pose proof (scanstring_consumes s) as Hs.
  destruct (scanstring s) as [[key s1]|e]; cbn [bind consumes] in *; [|exact Hs].
  pose proof (skip_ws_length s1) as Hw1.
  destruct (skip_ws s1) as [|c s2]; [discriminate|]. cbn [List.length] in Hw1.
  destruct (c =? 58); [|discriminate].
  pose proof (skip_ws_length s2) as Hw2.
  assert (Hv : consumes (skip_ws s2) (scan (skip_ws s2))) by (apply Hscan; lia).
  destruct (scan (skip_ws s2)) as [[v s3]|e]; cbn [bind consumes] in *; [|exact Hv].
  pose proof (skip_ws_length s3) as Hw3.
  destruct (skip_ws s3) as [|c' s4]; [discriminate|]. cbn [List.length] in Hw3.
  destruct (c' =? 125); [cbv zeta; cbn [consumes]; lia|].
  destruct (c' =? 44); [|discriminate].
  pose proof (skip_ws_length s4) as Hw4.
  destruct (skip_ws s4) as [|q s5]; [discriminate|]. cbn [List.length] in Hw4.
  destruct (q =? 34); [|discriminate].
  apply (consumes_longer s s5); [lia|]. apply Hpairs. lia.
Qed.

Lemma array_step_consumes scan items s acc :
  (forall s', (List.length s' <= List.length s)%nat -> consumes s' (scan s')) ->
  (forall s' acc', (List.length s' < List.length s)%nat -> consumes s' (items s' acc')) ->
  consumes s (array_step scan items s acc).
Proof.
  intros Hscan Hitems. unfold array_step.
  assert (Hv : consumes s (scan s)) by (apply Hscan; lia).
  destruct (scan s) as [[v s1]|e]; cbn [bind consumes] in *; [|exact Hv].
  pose proof (skip_ws_length s1) as Hw1.
  destruct (skip_ws s1) as [|c s2]; [discriminate|]. cbn [List.length] in Hw1.
  destruct (c =? 93); [cbv zeta; cbn [consumes]; lia|].
  destruct (c =? 44); [|discriminate].
  pose proof (skip_ws_length s2) as Hw2.
  apply (consumes_longer s (skip_ws s2)); [lia|]. apply Hitems. lia.
Qed.

(** With fuel for twice the text, no part of the scanner runs out of it. *)
Lemma scanner_fuel fuel :
  (forall s, (2 * List.length s + 1 <= fuel)%nat -> consumes s (scan_once fuel s))
  /\ (forall s acc, (2 * List.length s + 2 <= fuel)%nat ->
        consumes s (object_loop fuel s acc))
  /\ (forall s acc, (2 * List.length s + 2 <= fuel)%nat ->
        consumes s (array_loop fuel s acc)).
Proof.
  induction fuel as [|n (IHscan & IHpairs & IHitems)].
  - repeat split; intros; lia.
  - repeat split.
    + intros s Hf. cbn [scan_once]. apply scan_value_consumes.
      * intros s' acc Hlen. apply IHpairs. lia.
      * intros s' acc Hlen. apply IHitems. lia.
    + intros s acc Hf. cbn [object_loop]. apply object_step_consumes.
      * intros s' Hlen. apply IHscan. lia.
      * intros s' acc' Hlen. apply IHpairs. lia.
    + intros s acc Hf. cbn [array_loop]. apply array_step_consumes.
      * intros s' Hlen. apply IHscan. lia.
      * intros s' acc' Hlen. apply IHitems. lia.
Qed.

(** [json_loads] never stops for lack of fuel. *)
Lemma json_loads_fuel s : json_loads s <> Raise RecursionError.
Proof.
  unfold json_loads. destruct s as [|c t]; [discriminate|].
  destruct (c =? 0xfeff); [discriminate|].
  pose proof (skip_ws_length (c :: t)) as Hws.
  pose proof (proj1 (scanner_fuel (2 * List.length (c :: t) + 2))
                (skip_ws (c :: t)) ltac:(lia)) as H.
  destruct (scan_once (2 * List.length (c :: t) + 2) (skip_ws (c :: t)))
    as [[obj rest]|e]; cbn [bind consumes] in *.
  - destruct (skip_ws rest); discriminate.
  - intros E. injection E as ->. contradiction.
Qed.
End Fuel.

(** ** DB2Options through the envelope *)

Section Options.
Context {RT : PyRuntime}.

Lemma py_or_str (s : pystr) : py_or (PStr s) (PStr []) = PStr s.
Proof. destruct s; reflexivity. Qed.

Lemma py_or_not_None (x : value) : py_or x (PStr []) <> PNone.
Proof.
  unfold py_or. destruct (truthy x) eqn:E; [|discriminate].
  intros ->. discriminate.
Qed.

Lemma getitem_name (a b c : value) :
  getitem (PDict [(lit "name", a); (lit "query", b); (lit "table", c)]) (lit "name")
  = Ok a.
Proof. reflexivity. Qed.

Lemma getitem_query (a b c : value) :
  getitem (PDict [(lit "name", a); (lit "query", b); (lit "table", c)]) (lit "query")
  = Ok b.
Proof. reflexivity. Qed.

Lemma getitem_table (a b c : value) :
  getitem (PDict [(lit "name", a); (lit "query", b); (lit "table", c)]) (lit "table")
  = Ok c.
Proof. reflexivity. Qed.

Lemma json_dumps_options_ascii n q t :
  wf_str n -> wf_str q -> wf_str t ->
  ascii_str
    (json_dumps (options_dict {| _name := PStr n; _query := PStr q; _table := PStr t |})).
Proof.
  intros Hn Hq Ht. rewrite json_dumps_options.
  pose proof (escape_ascii _ Hn). pose proof (escape_ascii _ Hq).
  pose proof (escape_ascii _ Ht).
  pose proof (escape_ascii _ wf_str_name). pose proof (escape_ascii _ wf_str_query).
  pose proof (escape_ascii _ wf_str_table).
  unfold ascii_str in *.
  repeat first [ assumption
               | apply Forall_nil
               | apply Forall_cons; [unfold ascii_char; lia|]
               | apply Forall_app; split ].
Qed.

(** A record of three strings written by [to_proto] and read by
    [from_proto]: the envelope holds the JSON text, and the record read
    back has each string with its surrogate pairs joined. *)
Lemma DB2Options_to_from_proto n q t :
  wf_str n -> wf_str q -> wf_str t ->
  let x := {| _name := PStr n; _query := PStr q; _table := PStr t |} in
  exists p,
    DB2Options_to_proto x = Ok p
    /\ utf8_decode (configuration p) = Ok (json_dumps (options_dict x))
    /\ DB2Options_from_proto p
       = Ok {| _name := PStr (join_surrogates n);
               _query := PStr (join_surrogates q);
               _table := PStr (join_surrogates t) |}.
Proof.
  intros Hn Hq Ht x.
  pose proof (json_dumps_options_ascii n q t Hn Hq Ht) as Hascii.
  exists {| configuration := json_dumps (options_dict x) |}.
  split; [|split].
  - unfold DB2Options_to_proto. subst x.
    rewrite utf8_encode_ascii by exact Hascii. reflexivity.
  - cbn [configuration]. apply utf8_decode_ascii. exact Hascii.
  - unfold DB2Options_from_proto. cbn [configuration]. subst x.
    rewrite utf8_decode_ascii by exact Hascii. cbn [bind].
    rewrite json_loads_dumps_options by assumption. cbn [bind].
    rewrite getitem_name. cbn [bind].
    rewrite getitem_query. cbn [bind].
    rewrite getitem_table. cbn [bind].
    unfold DB2Options_init. rewrite !py_or_str. reflexivity.
Qed.

(** What [from_proto] does with a configuration that decodes to a
    dictionary: it reads the three keys, in the order name, query, table. *)
Lemma DB2Options_from_proto_dict p text d :
  utf8_decode (configuration p) = Ok text ->
  json_loads text = Ok (PDict d) ->
  DB2Options_from_proto p
  = match dict_get (lit "name") d with
    | None => Raise (KeyError (lit "name"))
    | Some name =>
      match dict_get (lit "query") d with
      | None => Raise (KeyError (lit "query"))
      | Some query =>
        match dict_get (lit "table") d with
        | None => Raise (KeyError (lit "table"))
        | Some table => Ok (DB2Options_init name query table)
        end
      end
    end.
Proof.
  intros Hdec Hloads. unfold DB2Options_from_proto.
  rewrite Hdec. cbn [bind]. rewrite Hloads. cbn [bind]. unfold getitem.
  destruct (dict_get (lit "name") d); [|reflexivity]. cbn [bind].
  destruct (dict_get (lit "query") d); [|reflexivity]. cbn [bind].
  destruct (dict_get (lit "table") d); reflexivity.
Qed.

Lemma DB2Options_from_proto_init p o :
  DB2Options_from_proto p = Ok o ->
  exists name query table, o = DB2Options_init name query table.
Proof.
  unfold DB2Options_from_proto. intros H.
  destruct (utf8_decode (configuration p)) as [text|]; [|discriminate].
  cbn [bind] in H.
  destruct (json_loads text) as [config|]; [|discriminate]. cbn [bind] in H.
  destruct (getitem config (lit "name")) as [name|]; [|discriminate].
  cbn [bind] in H.
  destruct (getitem config (lit "query")) as [query|]; [|discriminate].
  cbn [bind] in H.
  destruct (getitem config (lit "table")) as [table|]; [|discriminate].
  cbn [bind] in H. injection H as <-. eauto.
Qed.

End Options.

(** ** The holders *)

Section Holders.
Context {RT : PyRuntime} {Base : DataSourceBase} {Driver : Db2Driver}.

Lemma str_eqb_eq (a b : pystr) : str_eqb a b = true <-> a = b.
Proof.
  revert b. induction a as [|x a IH]; intros [|y b]; cbn [str_eqb];
    try (split; [discriminate | discriminate]); [tauto|].
  rewrite andb_true_iff, Z.eqb_eq, IH. split.
  - intros [-> ->]. reflexivity.
  - intros H. injection H as -> ->. auto.
Qed.

Lemma DB2Source_init_options name query table ts cts fm desc tags owner self :
  DB2Source_init name query table ts cts fm desc tags owner = Ok self ->
  _db2_options self
  = DB2Options_init (of_optional name) (of_optional query) (of_optional table).
Proof.
  unfold DB2Source_init. intros H.
  assert (forall name', (base <- DataSource_init name' ts cts fm desc tags owner ;;
            Ok {| _db2_options :=
                    DB2Options_init (of_optional name) (of_optional query)
                      (of_optional table);
                  super := base |}) = Ok self ->
          _db2_options self
          = DB2Options_init (of_optional name) (of_optional query) (of_optional table))
    as Hbase.
  { intros name' E. destruct (DataSource_init name' ts cts fm desc tags owner);
      [|discriminate]. cbn [bind] in E. injection E as <-. reflexivity. }
  destruct name as [[|c n]|], table as [[|d t]|]; cbn [optional_or] in H;
    try discriminate; eapply Hbase; exact H.
Qed.

(** C1 (as amended).  For every [DB2Options] record [x] whose three fields
    are strings in which no high surrogate is directly followed by a low
    surrogate, [to_proto] succeeds, the configuration bytes of the envelope
    decode to the JSON text [json.dumps] wrote, and [from_proto] of that
    envelope is [x] again: name, query and table are unchanged. *)
Theorem DB2Options_round_trip (n q t : pystr) :
  wf_str n -> wf_str q -> wf_str t ->
  pair_free n = true -> pair_free q = true -> pair_free t = true ->
  let x := {| _name := PStr n; _query := PStr q; _table := PStr t |} in
  exists p,
    DB2Options_to_proto x = Ok p
    /\ utf8_decode (configuration p) = Ok (json_dumps (options_dict x))
    /\ DB2Options_from_proto p = Ok x.
Proof.
  intros Hn Hq Ht Fn Fq Ft x.
  destruct (DB2Options_to_from_proto n q t Hn Hq Ht) as (p & H1 & H2 & H3).
  exists p. split; [exact H1|]. split; [exact H2|].
  rewrite H3. rewrite !join_surrogates_pair_free by assumption. reflexivity.
Qed.

(** C2 (as amended).  With neither a name nor a table the constructor
    raises [DataSourceNoNameException]; with no name and a table that is
    not the empty string, its own checks pass and it constructs the base
    class with the table reference as the name. *)
Theorem DB2Source_init_name_from_table
    (t : pystr) (query ts cts : option pystr)
    (fm : option (list (pystr * pystr))) (desc : option pystr)
    (tags : option (list (pystr * pystr))) (owner : option pystr) :
  t <> [] ->
  DB2Source_init None query None ts cts fm desc tags owner
  = Raise DataSourceNoNameException
  /\ DB2Source_init None query (Some t) ts cts fm desc tags owner
     = (base <- DataSource_init t ts cts fm desc tags owner ;;
        Ok {| _db2_options := DB2Options_init PNone (of_optional query) (PStr t);
              super := base |}).
Proof.
  intros Ht. split; [reflexivity|].
  destruct t as [|c t]; [contradiction|]. reflexivity.
Qed.

(** C3 (as amended).  For two [DB2Source] records [a] and [b] whose query
    fields are the strings [qa] and [qb], [a == b] is true exactly when the
    base class's [__eq__] holds, [qa] and [qb] are the same text, and the
    [timestamp_field], [created_timestamp_column] and [field_mapping]
    attributes compare equal.  Records are values: nothing depends on which
    object is compared. *)
Theorem DB2Source_eq_true_iff (a b : DB2Source) (qa qb : pystr) :
  _query (_db2_options a) = PStr qa ->
  _query (_db2_options b) = PStr qb ->
  DB2Source_eq a (ObjDB2Source b) = Ok true
  <-> DataSource_eq (super a) (super b) = true
      /\ qa = qb
      /\ py_eq (timestamp_field (super a)) (timestamp_field (super b)) = true
      /\ py_eq (created_timestamp_column (super a))
               (created_timestamp_column (super b)) = true
      /\ py_eq (field_mapping (super a)) (field_mapping (super b)) = true.
Proof.
  intros Ha Hb. unfold DB2Source_eq. rewrite Ha, Hb. cbn [py_eq].
  rewrite <- str_eqb_eq. split.
  - intros H. injection H as H. rewrite !andb_true_iff in H. tauto.
  - intros (H1 & H2 & H3 & H4 & H5). rewrite H1, H2, H3, H4, H5. reflexivity.
Qed.

(** C4.  The serialized form of a record of three strings is a JSON object
    with exactly the keys name, query and table, each with a string, held
    in the configuration bytes of the envelope; and [from_proto], given
    configuration bytes that hold a JSON object, builds the record from the
    values of exactly those three keys and raises [KeyError] when one of
    them is missing. *)
Theorem DB2Options_three_keys
    (n q t : pystr) (p : CustomSourceOptions) (text : pystr)
    (d : list (pystr * value)) :
  wf_str n -> wf_str q -> wf_str t ->
  utf8_decode (configuration p) = Ok text ->
  json_loads text = Ok (PDict d) ->
  (exists p' text' vn vq vt,
      DB2Options_to_proto {| _name := PStr n; _query := PStr q; _table := PStr t |}
      = Ok p'
      /\ utf8_decode (configuration p') = Ok text'
      /\ json_loads text'
         = Ok (PDict [(lit "name", PStr vn); (lit "query", PStr vq);
                      (lit "table", PStr vt)]))
  /\ DB2Options_from_proto p
     = match dict_get (lit "name") d with
       | None => Raise (KeyError (lit "name"))
       | Some name =>
         match dict_get (lit "query") d with
         | None => Raise (KeyError (lit "query"))
         | Some query =>
           match dict_get (lit "table") d with
           | None => Raise (KeyError (lit "table"))
           | Some table => Ok (DB2Options_init name query table)
           end
         end
       end.
Proof.
  intros Hn Hq Ht Hdec Hloads. split.
  - destruct (DB2Options_to_from_proto n q t Hn Hq Ht) as (p' & H1 & H2 & _).
    exists p', (json_dumps (options_dict
                  {| _name := PStr n; _query := PStr q; _table := PStr t |})),
           (join_surrogates n), (join_surrogates q), (join_surrogates t).
    split; [exact H1|]. split; [exact H2|].
    apply json_loads_dumps_options; assumption.
  - apply DB2Options_from_proto_dict with (text := text); assumption.
Qed.

(** C5.  For a [DB2Source] built by its constructor, [get_table_query_string]
    is the bare table reference when a non-empty table was given, whether or
    not a query was given too, and otherwise the query text between
    parentheses. *)
Theorem get_table_query_string_forms
    (name query table ts cts : option pystr)
    (fm : option (list (pystr * pystr))) (desc : option pystr)
    (tags : option (list (pystr * pystr))) (owner : option pystr)
    (self : DB2Source) :
  DB2Source_init name query table ts cts fm desc tags owner = Ok self ->
  get_table_query_string self
  = match table with
    | Some (c :: t) => c :: t
    | _ => lit "(" ++ match query with Some q => q | None => [] end ++ lit ")"
    end.
Proof.
  intros H. apply DB2Source_init_options in H.
  unfold get_table_query_string. rewrite H. unfold DB2Options_init.
  cbn [_table _query].
  destruct table as [[|c t]|]; cbn [of_optional py_or truthy py_format];
    destruct query as [[|c' q]|]; reflexivity.
Qed.

(** C6.  Once the connection is open, [get_table_column_names_and_types]
    sends exactly one statement, [SELECT * FROM (...) AS sub LIMIT 0] around
    the table query string of the source, and what it returns is the name
    of each column of the cursor description paired with the type of its
    type code. *)
Theorem get_table_column_names_and_types_query
    (self : DB2Source) (config : RepoConfig) (conn : connection)
    (log : list pystr) :
  _get_conn (offline_store config) = Ok conn ->
  let sql := lit "SELECT * FROM (" ++ get_table_query_string self
             ++ lit ") AS sub LIMIT 0" in
  snd (get_table_column_names_and_types self config log) = log ++ [sql]
  /\ fst (get_table_column_names_and_types self config log)
     = (description <- execute conn sql ;;
        Ok (map (fun c => (col_name c, pg_type_code_to_pg_type (type_code c)))
                description)).
Proof.
  intros Hconn sql.
  unfold get_table_column_names_and_types, db_bind, db_connect, db_execute, db_ret.
  rewrite Hconn. fold sql.
  destruct (execute conn sql); split; reflexivity.
Qed.

(** C7 (as amended).  For a storage descriptor built from a table reference
    [t]: when no high surrogate of [t] is directly followed by a low
    surrogate, [from_proto] of its [to_proto] is the same descriptor, whose
    table reference is [t]; when [t] is not the empty string,
    [to_data_source] constructs a [DB2Source] whose table is [t] and whose
    name, handed to the base class, is [t]. *)
Theorem SavedDatasetDB2Storage_round_trip (t : pystr) :
  wf_str t ->
  let s := SavedDatasetDB2Storage_init (PStr t) in
  _table (db2_options s) = PStr t
  /\ (pair_free t = true ->
      exists p, SavedDatasetDB2Storage_to_proto s = Ok p
                /\ SavedDatasetDB2Storage_from_proto p = Ok s)
  /\ (t <> [] ->
      to_data_source s
      = (base <- DataSource_init t (Some []) (Some []) None (Some []) None (Some []) ;;
         Ok {| _db2_options := DB2Options_init PNone PNone (PStr t);
               super := base |})).
Proof.
  intros Ht s.
  assert (Hs : db2_options s
               = {| _name := PStr []; _query := PStr []; _table := PStr t |}).
  { subst s. unfold SavedDatasetDB2Storage_init, DB2Options_init.
    cbn [db2_options]. rewrite py_or_str. reflexivity. }
  split; [rewrite Hs; reflexivity|]. split.
  - intros Hfree.
    destruct (DB2Options_to_from_proto [] [] t (Forall_nil _) (Forall_nil _) Ht)
      as (p & H1 & _ & H3).
    exists (kind_custom_storage p). split.
    + unfold SavedDatasetDB2Storage_to_proto. rewrite Hs. cbv zeta in H1.
      rewrite H1. reflexivity.
    + unfold SavedDatasetDB2Storage_from_proto. cbn [custom_storage].
      rewrite H3. cbn [bind _table]. cbn [join_surrogates].
      rewrite join_surrogates_pair_free by exact Hfree. reflexivity.
  - intros Hne. unfold to_data_source. rewrite Hs. cbn [_table].
    unfold DB2Source_of_table. cbn [check_optional_str bind].
    destruct t as [|c t]; [contradiction|]. reflexivity.
Qed.

(** C8.  Comparing a [DB2Source] with anything that is not a [DB2Source],
    a value of a built-in type or an instance of another class, raises
    [TypeError]: [__eq__] returns neither [False] nor [NotImplemented]. *)
Theorem DB2Source_eq_other_type (a : DB2Source) (v : value) (class_name : pystr) :
  DB2Source_eq a (ObjValue v) = Raise TypeError
  /\ DB2Source_eq a (ObjInstance class_name) = Raise TypeError.
Proof. split; reflexivity. Qed.

(** C9.  Whatever the three arguments of [DB2Options.__init__] are, no
    stored field is [None]; an argument that is [None] is stored as the
    empty string and an [Optional[str]] argument is stored as a string; and
    no field of a record that [from_proto] returns is [None]. *)
Theorem DB2Options_never_None
    (name query table : value) (n q t : option pystr)
    (p : CustomSourceOptions) (o : DB2Options) :
  DB2Options_from_proto p = Ok o ->
  (let x := DB2Options_init name query table in
   _name x <> PNone /\ _query x <> PNone /\ _table x <> PNone)
  /\ (let x := DB2Options_init PNone PNone PNone in
      _name x = PStr [] /\ _query x = PStr [] /\ _table x = PStr [])
  /\ (let x := DB2Options_init (of_optional n) (of_optional q) (of_optional t) in
      let text := fun o : option pystr =>
                    match o with Some s => s | None => [] end in
      _name x = PStr (text n) /\ _query x = PStr (text q)
      /\ _table x = PStr (text t))
  /\ (_name o <> PNone /\ _query o <> PNone /\ _table o <> PNone).
Proof.
  intros H. split; [|split; [|split]].
  - cbn. repeat split; apply py_or_not_None.
  - cbn. auto.
  - destruct n as [[|? ?]|], q as [[|? ?]|], t as [[|? ?]|]; cbn; auto.
  - apply DB2Options_from_proto_init in H. destruct H as (a & b & c & ->).
    cbn. repeat split; apply py_or_not_None.
Qed.

(** C10.  With the empty string as name and no table the constructor does
    not raise [DataSourceNoNameException], whose guard asks for both to be
    [None]: the assertion on the resolved name fails, so it raises
    [AssertionError]. *)
Theorem DB2Source_init_empty_name
    (query ts cts : option pystr)
    (fm : option (list (pystr * pystr))) (desc : option pystr)
    (tags : option (list (pystr * pystr))) (owner : option pystr) :
  DB2Source_init (Some []) query None ts cts fm desc tags owner
  = Raise AssertionError
  /\ DB2Source_init (Some []) query None ts cts fm desc tags owner
     <> Raise DataSourceNoNameException.
Proof. split; [reflexivity | discriminate]. Qed.

End Holders.

(** * Further properties *)

(** ** What the JSON text does to surrogates *)

Lemma join_surrogates_length_len n : forall s,
  (List.length s <= n)%nat ->
  (List.length (join_surrogates s) <= List.length s)%nat.
Proof.
  induction n as [|n IH]; intros s Hlen.
  - destruct s; [reflexivity | cbn in Hlen; lia].
  - destruct s as [|c [|d s']]; try reflexivity.
    cbn [List.length] in Hlen.
    change (join_surrogates (c :: d :: s'))
      with (if is_high_surrogate c && is_low_surrogate d
            then join_pair c d :: join_surrogates s'
            else c :: join_surrogates (d :: s')).
    destruct (is_high_surrogate c && is_low_surrogate d); cbn [List.length].
    + pose proof (IH s' ltac:(lia)). lia.
    + pose proof (IH (d :: s') ltac:(cbn [List.length]; lia)) as H.
      cbn [List.length] in H. lia.
Qed.

Lemma join_surrogates_length s :
  (List.length (join_surrogates s) <= List.length s)%nat.
Proof. apply (join_surrogates_length_len (List.length s)). lia. Qed.

(** A string that comes back unchanged has no surrogate pair. *)
Lemma join_surrogates_fixed s : join_surrogates s = s -> pair_free s = true.
Proof.
  induction s as [|c t IH]; [reflexivity|].
  destruct t as [|d s']; [reflexivity|].
  change (join_surrogates (c :: d :: s'))
    with (if is_high_surrogate c && is_low_surrogate d
          then join_pair c d :: join_surrogates s'
          else c :: join_surrogates (d :: s')).
  change (pair_free (c :: d :: s'))
    with (negb (is_high_surrogate c && is_low_surrogate d) && pair_free (d :: s')).
  destruct (is_high_surrogate c && is_low_surrogate d); intros H.
  - exfalso. pose proof (join_surrogates_length s') as Hlen.
    apply (f_equal (@List.length Z)) in H. cbn [List.length] in H. lia.
  - injection H as H. cbn [negb andb]. apply IH. exact H.
Qed.

Lemma join_pair_range c d :
  is_high_surrogate c = true -> is_low_surrogate d = true ->
  0x10000 <= join_pair c d <= 0x10FFFF.
Proof.
  intros Hc Hd. apply is_high_true_iff in Hc. apply is_low_true_iff in Hd.
  unfold join_pair. rewrite Z.shiftl_mul_pow2 by lia.
  change 0xd800 with 55296 in *. change 0xdbff with 56319 in *.
  change 0xdc00 with 56320 in *. change 0xdfff with 57343 in *.
  rewrite lor_mul_pow2_small by lia.
  change (2 ^ 10) with 1024. change 0x10000 with 65536.
  change 0x10FFFF with 1114111. lia.
Qed.

Lemma wf_str_join_surrogates_len n : forall s,
  (List.length s <= n)%nat -> wf_str s -> wf_str (join_surrogates s).
Proof.
  induction n as [|n IH]; intros s Hlen Hs.
  - destruct s; [constructor | cbn in Hlen; lia].
  - destruct s as [|c [|d s']]; try exact Hs.
    cbn [List.length] in Hlen.
    inversion Hs as [|c' t' Hc Ht]; subst.
    inversion Ht as [|d' t'' Hd Hs']; subst.
    change (join_surrogates (c :: d :: s'))
      with (if is_high_surrogate c && is_low_surrogate d
            then join_pair c d :: join_surrogates s'
            else c :: join_surrogates (d :: s')).
    destruct (is_high_surrogate c && is_low_surrogate d) eqn:E.
    + apply andb_true_iff in E. destruct E as [E1 E2].
      pose proof (join_pair_range c d E1 E2) as Hr.
      constructor; [unfold wf_char; lia|]. apply IH; [lia | exact Hs'].
    + constructor; [exact Hc|]. apply IH; [cbn [List.length]; lia | exact Ht].
Qed.

Lemma wf_str_join_surrogates s : wf_str s -> wf_str (join_surrogates s).
Proof. apply (wf_str_join_surrogates_len (List.length s)). lia. Qed.

(** The head of a joined string is the head of the string, or a character
    above the surrogates. *)
Lemma join_surrogates_head d s :
  exists h r, join_surrogates (d :: s) = h :: r
              /\ (h = d \/ is_low_surrogate h = false).
Proof.
  destruct s as [|e s']; [exists d, []; auto|].
  change (join_surrogates (d :: e :: s'))
    with (if is_high_surrogate d && is_low_surrogate e
          then join_pair d e :: join_surrogates s'
          else d :: join_surrogates (e :: s')).
  destruct (is_high_surrogate d && is_low_surrogate e) eqn:E.
  - apply andb_true_iff in E. destruct E as [E1 E2].
    pose proof (join_pair_range d e E1 E2) as Hr.
    exists (join_pair d e), (join_surrogates s'). split; [reflexivity|].
    right. apply is_low_false_iff.
    change 0xdc00 with 56320. change 0xdfff with 57343.
    change 0x10000 with 65536 in Hr. lia.
  - exists d, (join_surrogates (e :: s')). auto.
Qed.

Lemma pair_free_join_surrogates_len n : forall s,
  (List.length s <= n)%nat -> pair_free (join_surrogates s) = true.
Proof.
  induction n as [|n IH]; intros s Hlen.
  - destruct s; [reflexivity | cbn in Hlen; lia].
  - destruct s as [|c [|d s']]; try reflexivity.
    cbn [List.length] in Hlen.
    change (join_surrogates (c :: d :: s'))
      with (if is_high_surrogate c && is_low_surrogate d
            then join_pair c d :: join_surrogates s'
            else c :: join_surrogates (d :: s')).
    destruct (is_high_surrogate c && is_low_surrogate d) eqn:E.
    + apply andb_true_iff in E. destruct E as [E1 E2].
      pose proof (join_pair_range c d E1 E2) as Hr.
      pose proof (IH s' ltac:(lia)) as Hs'.
      destruct (join_surrogates s') as [|h r]; [reflexivity|].
      change (pair_free (join_pair c d :: h :: r))
        with (negb (is_high_surrogate (join_pair c d) && is_low_surrogate h)
              && pair_free (h :: r)).
      rewrite Hs'.
      replace (is_high_surrogate (join_pair c d)) with false; [reflexivity|].
      symmetry. apply is_high_false_iff.
      change 0xd800 with 55296. change 0xdbff with 56319.
      change 0x10000 with 65536 in Hr. lia.
    + pose proof (IH (d :: s') ltac:(cbn [List.length]; lia)) as Ht.
      destruct (join_surrogates_head d s') as (h & r & Hj & Hh).
      rewrite Hj in *.
      change (pair_free (c :: h :: r))
        with (negb (is_high_surrogate c && is_low_surrogate h)
              && pair_free (h :: r)).
      rewrite Ht. destruct Hh as [-> | Hh].
      * rewrite E. reflexivity.
      * rewrite Hh, andb_false_r. reflexivity.
Qed.

Lemma pair_free_join_surrogates s : pair_free (join_surrogates s) = true.
Proof. apply (pair_free_join_surrogates_len (List.length s)). lia. Qed.

(** ** The configuration bytes *)

Lemma hexdigit_printable d : 0 <= d < 16 -> printable (hexdigit d).
Proof.
  intros Hd. unfold printable, hexdigit. destruct (d <? 10); lia.
Qed.

Lemma format_04x_printable n : Forall printable (format_04x n).
Proof.
  unfold format_04x.
  repeat constructor; apply hexdigit_printable; apply Z.mod_pos_bound; lia.
Qed.

Lemma escape_char_printable c : wf_char c -> Forall printable (escape_char c).
Proof.
  intros Hc. destruct (escape_char_shape c Hc) as [H1 H2 H3|e He Hb Hr|Hr|Hr].
  - repeat constructor; unfold printable; lia.
  - assert (32 <= e <= 126).
    { unfold backslash in Hb.
      repeat match type of Hb with
             | (if ?a =? ?b then _ else _) = _ =>
               destruct (Z.eqb_spec a b); [subst; lia|]
             end.
      discriminate. }
    repeat constructor; unfold printable; lia.
  - constructor; [unfold printable; lia|].
    constructor; [unfold printable; lia|]. apply format_04x_printable.
  - apply Forall_app. split;
      (constructor; [unfold printable; lia|];
       constructor; [unfold printable; lia|]; apply format_04x_printable).
Qed.

Lemma escape_printable s : wf_str s -> Forall printable (escape s).
Proof.
  induction 1 as [|c t Hc Ht IH]; [constructor|].
  unfold escape. cbn [flat_map]. apply Forall_app. split.
  - apply escape_char_printable. exact Hc.
  - exact IH.
Qed.

Lemma skip_ws_all_ws s : Forall (fun c => is_ws c = true) s -> skip_ws s = [].
Proof.
  induction 1 as [|c t Hc Ht IH]; [reflexivity|].
  cbn [skip_ws]. rewrite Hc. exact IH.
Qed.

Lemma is_ws_ascii c : is_ws c = true -> ascii_char c.
Proof.
  unfold is_ws, ascii_char. rewrite !orb_true_iff, !Z.eqb_eq. lia.
Qed.

Section Envelope.
Context {RT : PyRuntime}.

(** X1.  For a record of three strings, [from_proto] of [to_proto] gives
    the record back exactly when none of the three strings has a high
    surrogate directly followed by a low surrogate. *)
Theorem DB2Options_round_trip_exact_iff (n q t : pystr) :
  wf_str n -> wf_str q -> wf_str t ->
  let x := {| _name := PStr n; _query := PStr q; _table := PStr t |} in
  (p <- DB2Options_to_proto x ;; DB2Options_from_proto p) = Ok x
  <-> pair_free n = true /\ pair_free q = true /\ pair_free t = true.
Proof.
  intros Hn Hq Ht x.
  destruct (DB2Options_to_from_proto n q t Hn Hq Ht) as (p & H1 & _ & H3).
  fold x in H1. rewrite H1. cbn [bind]. rewrite H3. split.
  - intros H. injection H as En Eq Et.
    repeat split; apply join_surrogates_fixed; assumption.
  - intros (Fn & Fq & Ft). subst x.
    rewrite !join_surrogates_pair_free by assumption. reflexivity.
Qed.

(** X2.  What comes back from the envelope once comes back unchanged from
    then on: the record [y] read from [to_proto] of a record of three
    strings is read again from [to_proto] of [y]. *)
Theorem DB2Options_round_trip_stable (n q t : pystr) :
  wf_str n -> wf_str q -> wf_str t ->
  let x := {| _name := PStr n; _query := PStr q; _table := PStr t |} in
  exists y,
    (p <- DB2Options_to_proto x ;; DB2Options_from_proto p) = Ok y
    /\ (p <- DB2Options_to_proto y ;; DB2Options_from_proto p) = Ok y.
Proof.
  intros Hn Hq Ht x.
  destruct (DB2Options_to_from_proto n q t Hn Hq Ht) as (p & H1 & _ & H3).
  exists {| _name := PStr (join_surrogates n);
            _query := PStr (join_surrogates q);
            _table := PStr (join_surrogates t) |}.
  split.
  - fold x in H1. rewrite H1. exact H3.
  - destruct (DB2Options_to_from_proto (join_surrogates n) (join_surrogates q)
                (join_surrogates t)
                (wf_str_join_surrogates n Hn) (wf_str_join_surrogates q Hq)
                (wf_str_join_surrogates t Ht)) as (p' & H1' & _ & H3').
    cbv zeta in H1'. rewrite H1'. cbn [bind]. rewrite H3'.
    rewrite (join_surrogates_pair_free _ (pair_free_join_surrogates n)).
    rewrite (join_surrogates_pair_free _ (pair_free_join_surrogates q)).
    rewrite (join_surrogates_pair_free _ (pair_free_join_surrogates t)).
    reflexivity.
Qed.

(** [to_proto] of three strings: the configuration is the JSON text, which
    is printable ASCII. *)
Lemma DB2Options_to_proto_text n q t :
  wf_str n -> wf_str q -> wf_str t ->
  let x := {| _name := PStr n; _query := PStr q; _table := PStr t |} in
  DB2Options_to_proto x = Ok {| configuration := json_dumps (options_dict x) |}
  /\ Forall printable (json_dumps (options_dict x)).
Proof.
  intros Hn Hq Ht x.
  pose proof (json_dumps_options_ascii n q t Hn Hq Ht) as Hascii.
  split.
  - unfold DB2Options_to_proto. subst x.
    rewrite utf8_encode_ascii by exact Hascii. reflexivity.
  - subst x. rewrite json_dumps_options.
    pose proof (escape_printable _ Hn). pose proof (escape_printable _ Hq).
    pose proof (escape_printable _ Ht).
    pose proof (escape_printable _ wf_str_name).
    pose proof (escape_printable _ wf_str_query).
    pose proof (escape_printable _ wf_str_table).
    repeat first [ assumption
                 | apply Forall_nil
                 | apply Forall_cons; [unfold printable; lia|]
                 | apply Forall_app; split ].
Qed.

(** X3.  The configuration [to_proto] writes for three strings is printable
    ASCII, whatever characters the strings hold. *)
Theorem DB2Options_to_proto_printable (n q t : pystr) :
  wf_str n -> wf_str q -> wf_str t ->
  exists p,
    DB2Options_to_proto {| _name := PStr n; _query := PStr q; _table := PStr t |}
    = Ok p
    /\ Forall printable (configuration p).
Proof.
  intros Hn Hq Ht.
  destruct (DB2Options_to_proto_text n q t Hn Hq Ht) as [H1 H2].
  eexists. split; [exact H1 | exact H2].
Qed.


(** X5.  A configuration that is valid JSON and not an object (a list, a
    string, a number, [true], [false] or [null]) makes [from_proto] raise
    [TypeError]. *)
Theorem DB2Options_from_proto_not_object
    (p : CustomSourceOptions) (text : pystr) (v : value) :
  utf8_decode (configuration p) = Ok text ->
  json_loads text = Ok v ->
  (forall d, v <> PDict d) ->
  DB2Options_from_proto p = Raise TypeError.
Proof.
  intros H1 H2 Hv. unfold DB2Options_from_proto.
  rewrite H1. cbn [bind]. rewrite H2. cbn [bind].
  destruct v; try reflexivity. exfalso. eapply Hv. reflexivity.
Qed.

(** X6.  A configuration that is empty or holds white space only, as in an
    envelope nobody has written to, makes [from_proto] raise
    [JSONDecodeError]. *)
Theorem DB2Options_from_proto_blank (p : CustomSourceOptions) :
  Forall (fun c => is_ws c = true) (configuration p) ->
  DB2Options_from_proto p = Raise JSONDecodeError.
Proof.
  intros Hws. unfold DB2Options_from_proto.
  rewrite utf8_decode_ascii
    by (eapply Forall_impl; [|exact Hws]; apply is_ws_ascii).
  cbn [bind]. unfold json_loads.
  destruct (configuration p) as [|c r] eqn:E; [reflexivity|].
  inversion Hws as [|c' r' Hc Hr]; subst.
  replace (c =? 0xfeff) with false
    by (symmetry; apply Z.eqb_neq; apply is_ws_ascii in Hc;
        unfold ascii_char in Hc; change 0xfeff with 65279; lia).
  rewrite (skip_ws_all_ws (c :: r) Hws).
  rewrite Nat.add_comm. reflexivity.
Qed.

End Envelope.

(** ** The constructor, the query string and the metadata query *)

Section MoreHolders.
Context {RT : PyRuntime} {Base : DataSourceBase} {Driver : Db2Driver}.

(** X7.  The name handed to the base class is the first of name and table
    that is not empty: a non-empty name is used whatever the table is, and
    an empty name gives way to a non-empty table. *)
Theorem DB2Source_init_name_precedence
    (n t : pystr) (query table ts cts : option pystr)
    (fm : option (list (pystr * pystr))) (desc : option pystr)
    (tags : option (list (pystr * pystr))) (owner : option pystr) :
  n <> [] -> t <> [] ->
  DB2Source_init (Some n) query table ts cts fm desc tags owner
  = (base <- DataSource_init n ts cts fm desc tags owner ;;
     Ok {| _db2_options :=
             DB2Options_init (PStr n) (of_optional query) (of_optional table);
           super := base |})
  /\ DB2Source_init (Some []) query (Some t) ts cts fm desc tags owner
     = (base <- DataSource_init t ts cts fm desc tags owner ;;
        Ok {| _db2_options :=
                DB2Options_init (PStr []) (of_optional query) (PStr t);
              super := base |}).
Proof.
  intros Hn Ht. destruct n as [|c n]; [contradiction|].
  destruct t as [|d t]; [contradiction|].
  split; [destruct table; reflexivity | reflexivity].
Qed.

(** X8.  Every source the constructor returns holds three strings as
    options, of which the name or the table is not empty. *)
Theorem DB2Source_init_options_invariant
    (name query table ts cts : option pystr)
    (fm : option (list (pystr * pystr))) (desc : option pystr)
    (tags : option (list (pystr * pystr))) (owner : option pystr)
    (self : DB2Source) :
  DB2Source_init name query table ts cts fm desc tags owner = Ok self ->
  exists n q t,
    _db2_options self = {| _name := PStr n; _query := PStr q; _table := PStr t |}
    /\ (n <> [] \/ t <> []).
Proof.
  intros H. pose proof (DB2Source_init_options _ _ _ _ _ _ _ _ _ _ H) as Ho.
  rewrite Ho. unfold DB2Source_init in H.
  destruct name as [[|c n]|], query as [[|c' q]|], table as [[|d t]|];
    cbn [optional_or] in H; try discriminate;
    cbn; eexists _, _, _; (split; [reflexivity|]);
    first [left; discriminate | right; discriminate].
Qed.

(** X9.  The statement the metadata query sends for a constructed source
    names the table between one pair of parentheses when a non-empty table
    was given, and holds the query between two pairs otherwise. *)
Theorem metadata_statement_forms
    (name query table ts cts : option pystr)
    (fm : option (list (pystr * pystr))) (desc : option pystr)
    (tags : option (list (pystr * pystr))) (owner : option pystr)
    (self : DB2Source) (config : RepoConfig) (conn : connection)
    (log : list pystr) :
  DB2Source_init name query table ts cts fm desc tags owner = Ok self ->
  _get_conn (offline_store config) = Ok conn ->
  snd (get_table_column_names_and_types self config log)
  = log ++ [match table with
            | Some (c :: t) =>
              lit "SELECT * FROM (" ++ (c :: t) ++ lit ") AS sub LIMIT 0"
            | _ =>
              lit "SELECT * FROM ((" ++ match query with Some q => q | None => [] end
              ++ lit ")) AS sub LIMIT 0"
            end].
Proof.
  intros H Hconn. apply DB2Source_init_options in H.
  unfold get_table_column_names_and_types, db_bind, db_connect, db_execute, db_ret.
  rewrite Hconn.
  match goal with
  | |- snd (match execute conn ?sql with _ => _ end) = _ =>
    assert (Hsnd : forall r : result (list Column),
               snd (match r with
                    | Ok a => (Ok (map (fun c => (col_name c,
                                   pg_type_code_to_pg_type (type_code c))) a),
                               log ++ [sql])
                    | Raise e => (Raise e, log ++ [sql])
                    end) = log ++ [sql]) by (intros []; reflexivity);
    rewrite Hsnd
  end.
  unfold get_table_query_string. rewrite H. unfold DB2Options_init.
  cbn [_table _query].
  destruct table as [[|c t]|]; cbn [of_optional py_or truthy py_format];
    destruct query as [[|c' q]|]; cbn [of_optional py_or truthy py_format];
    rewrite <- ?app_assoc; reflexivity.
Qed.

(** X10.  Whatever happens, the metadata query only adds to the log of
    statements, and adds one statement at most; when the connection cannot
    be opened it adds none and raises what the connection raised. *)
Theorem metadata_log_grows
    (self : DB2Source) (config : RepoConfig) (log : list pystr) :
  (exists sent, snd (get_table_column_names_and_types self config log) = log ++ sent
                /\ (List.length sent <= 1)%nat)
  /\ (forall e, _get_conn (offline_store config) = Raise e ->
        get_table_column_names_and_types self config log = (Raise e, log)).
Proof.
  unfold get_table_column_names_and_types, db_bind, db_connect, db_execute, db_ret.
  destruct (_get_conn (offline_store config)) as [conn|e0].
  - split; [|discriminate].
    match goal with
    | |- context [execute conn ?sql] =>
      exists [sql]; destruct (execute conn sql); split; (reflexivity || (cbn; lia))
    end.
  - split.
    + exists []. rewrite app_nil_r. split; [reflexivity | cbn; lia].
    + intros e E. injection E as ->. reflexivity.
Qed.

(** X11.  [SavedDatasetDB2Storage.from_proto] keeps the table of the
    envelope and nothing else: the name and the query of the descriptor it
    returns are empty.  A storage message of another kind has no
    configuration to read and raises [JSONDecodeError]. *)
Theorem SavedDatasetDB2Storage_from_proto_keeps_table
    (storage_proto : SavedDatasetStorageProto) (s : SavedDatasetDB2Storage) :
  SavedDatasetDB2Storage_from_proto storage_proto = Ok s ->
  (_name (db2_options s) = PStr [] /\ _query (db2_options s) = PStr []
   /\ exists o, DB2Options_from_proto (custom_storage storage_proto) = Ok o
                /\ _table (db2_options s) = _table o)
  /\ SavedDatasetDB2Storage_from_proto kind_other = Raise JSONDecodeError.
Proof.
  intros H. split; [|reflexivity].
  unfold SavedDatasetDB2Storage_from_proto in H.
  destruct (DB2Options_from_proto (custom_storage storage_proto)) as [o|] eqn:E;
    [|discriminate].
  cbn [bind] in H. injection H as <-.
  split; [reflexivity|]. split; [reflexivity|].
  exists o. split; [reflexivity|].
  destruct (DB2Options_from_proto_init _ _ E) as (a & b & c & ->).
  cbn [SavedDatasetDB2Storage_init db2_options DB2Options_init _table].
  unfold py_or at 1. destruct (truthy (py_or c (PStr []))) eqn:T; [reflexivity|].
  unfold py_or in *. destruct (truthy c) eqn:Tc; [congruence | reflexivity].
Qed.

(** X12.  A storage descriptor built from anything but a string has no
    data source: [to_data_source] raises [TypeError] when the table
    reference is a true value that is not a string, and [AssertionError]
    when it is a false one, which the constructor has stored as the empty
    string. *)
Theorem to_data_source_needs_string (v : value) :
  (forall s, v <> PStr s) ->
  to_data_source (SavedDatasetDB2Storage_init v)
  = Raise (if truthy v then TypeError else AssertionError).
Proof.
  intros Hv. unfold to_data_source, SavedDatasetDB2Storage_init, DB2Options_init.
  cbn [db2_options _table]. unfold py_or.
  destruct (truthy v) eqn:T.
  - destruct v; try reflexivity; try discriminate.
    exfalso. eapply Hv. reflexivity.
  - reflexivity.
Qed.

(** X13.  The data source of a storage descriptor reads the bare table:
    its table query string is the table reference, without parentheses. *)
Theorem to_data_source_reads_table (t : pystr) (src : DB2Source) :
  t <> [] ->
  to_data_source (SavedDatasetDB2Storage_init (PStr t)) = Ok src ->
  get_table_query_string src = t.
Proof.
  intros Ht H. unfold to_data_source, SavedDatasetDB2Storage_init, DB2Options_init in H.
  cbn [db2_options _table] in H. rewrite py_or_str in H.
  unfold DB2Source_of_table in H. cbn [check_optional_str bind] in H.
  apply DB2Source_init_options in H.
  unfold get_table_query_string. rewrite H.
  destruct t as [|c t]; [contradiction|]. reflexivity.
Qed.

(** X14.  [DB2Source.__eq__] never looks at the table: two sources built
    with the same non-empty name, the same query and the same other
    arguments, and with different tables, compare with each other the way
    each compares with itself. *)
Theorem DB2Source_eq_ignores_table
    (n : pystr) (query table1 table2 ts cts : option pystr)
    (fm : option (list (pystr * pystr))) (desc : option pystr)
    (tags : option (list (pystr * pystr))) (owner : option pystr)
    (a b : DB2Source) :
  n <> [] ->
  DB2Source_init (Some n) query table1 ts cts fm desc tags owner = Ok a ->
  DB2Source_init (Some n) query table2 ts cts fm desc tags owner = Ok b ->
  DB2Source_eq a (ObjDB2Source b) = DB2Source_eq a (ObjDB2Source a)
  /\ DB2Source_eq b (ObjDB2Source a) = DB2Source_eq b (ObjDB2Source b).
Proof.
  intros Hn Ha Hb. destruct n as [|c n]; [contradiction|].
  assert (Hinit : forall table,
             DB2Source_init (Some (c :: n)) query table ts cts fm desc tags owner
             = (base <- DataSource_init (c :: n) ts cts fm desc tags owner ;;
                Ok {| _db2_options :=
                        DB2Options_init (PStr (c :: n)) (of_optional query)
                          (of_optional table);
                      super := base |}))
    by (intros [t|]; reflexivity).
  rewrite Hinit in Ha, Hb.
  destruct (DataSource_init (c :: n) ts cts fm desc tags owner) as [base|];
    [|discriminate].
  cbn [bind] in Ha, Hb. injection Ha as <-. injection Hb as <-.
  split; reflexivity.
Qed.

End MoreHolders.

(** ** DB2Source.from_proto *)

Lemma utf8_decode_surrogatepass_ascii s :
  ascii_str s -> utf8_decode_surrogatepass s = Ok s.
Proof.
  induction 1 as [|c t Hc Ht IH]; [reflexivity|].
  unfold ascii_char in Hc. cbn [utf8_decode_surrogatepass].
  replace (in_range 0 0x7F c) with true
    by (symmetry; unfold in_range; apply andb_true_iff; split;
        apply Z.leb_le; change 0x7F with 127; lia).
  rewrite IH. reflexivity.
Qed.

(** Bytes from 1 to 127 carry no byte order mark and no zero: they are
    taken for UTF-8. *)
Lemma detect_encoding_ascii b :
  Forall (fun c => 1 <= c <= 127) b -> detect_encoding b = utf_8.
Proof.
  intros Hb. unfold detect_encoding, startswith.
  destruct b as [|b0 b']; [reflexivity|].
  inversion Hb as [|x y H0 Hb']; subst.
  cbn [strip_prefix].
  destruct (Z.eqb_spec 0x00 b0); [lia|].
  destruct (Z.eqb_spec 0xFF b0); [change 0xFF with 255 in *; lia|].
  destruct (Z.eqb_spec 0xFE b0); [change 0xFE with 254 in *; lia|].
  destruct (Z.eqb_spec 0xEF b0); [change 0xEF with 239 in *; lia|].
  cbn [orb].
  destruct b' as [|b1 b'']; [reflexivity|].
  inversion Hb' as [|x y H1 Hb'']; subst.
  destruct (Z.eqb_spec b0 0); [lia|].
  destruct (Z.eqb_spec b1 0); [lia|].
  destruct b'' as [|b2 [|b3 b4]]; reflexivity.
Qed.

Section SourceFromProto.
Context {RT : PyRuntime} {Base : DataSourceBase}.

Lemma JSONDecoder_decode_json_loads s :
  match s with c :: _ => c <> 0xfeff | [] => True end ->
  JSONDecoder_decode s = json_loads s.
Proof.
  destruct s as [|c r]; intros H; [reflexivity|].
  unfold json_loads. destruct (Z.eqb_spec c 0xfeff); [contradiction|].
  reflexivity.
Qed.

Lemma json_loads_bytes_ascii_text (b : pybytes) :
  Forall (fun c => 1 <= c <= 127) b -> json_loads_bytes b = json_loads b.
Proof.
  intros Hb.
  assert (Hascii : ascii_str b)
    by (eapply Forall_impl; [|exact Hb]; unfold ascii_char; intros; cbv beta; lia).
  unfold json_loads_bytes. rewrite detect_encoding_ascii by exact Hb.
  cbn [decode_surrogatepass].
  rewrite utf8_decode_surrogatepass_ascii by exact Hascii.
  cbn [bind]. apply JSONDecoder_decode_json_loads.
  destruct b as [|c r]; [exact I|].
  inversion Hb; subst. change 0xfeff with 65279. lia.
Qed.

(** X15.  On a configuration of ASCII bytes without a zero byte,
    [json.loads] of the bytes, as in [DB2Source.from_proto], and
    [json.loads] of their UTF-8 decoding, as in [DB2Options.from_proto],
    are the same. *)
Theorem json_loads_bytes_ascii (b : pybytes) :
  Forall (fun c => 1 <= c <= 127) b ->
  json_loads_bytes b = (text <- utf8_decode b ;; json_loads text).
Proof.
  intros Hb. rewrite json_loads_bytes_ascii_text by exact Hb.
  rewrite utf8_decode_ascii
    by (eapply Forall_impl; [|exact Hb]; unfold ascii_char; intros; cbv beta; lia).
  reflexivity.
Qed.

End SourceFromProto.

Section SourceFromProtoRuns.
Context {RT : PyRuntime} {Base : DataSourceBase}.

Lemma json_loads_bytes_options n q t :
  wf_str n -> wf_str q -> wf_str t ->
  json_loads_bytes
    (json_dumps (options_dict {| _name := PStr n; _query := PStr q; _table := PStr t |}))
  = json_loads
      (json_dumps (options_dict {| _name := PStr n; _query := PStr q; _table := PStr t |})).
Proof.
  intros Hn Hq Ht.
  destruct (DB2Options_to_proto_text n q t Hn Hq Ht) as [_ Hprint].
  cbv zeta in Hprint.
  apply json_loads_bytes_ascii_text.
  eapply Forall_impl; [|exact Hprint]. unfold printable. intros; cbv beta; lia.
Qed.

(** X16.  [DB2Source.from_proto] reads what [DB2Options.to_proto] wrote:
    given a message whose custom options are [to_proto] of three strings,
    it calls the constructor with those strings (surrogate pairs joined)
    and the message's own fields; and when the strings have no surrogate
    pair and the name or the table is not empty, the source it builds has
    the record as options and the first non-empty of name and table as the
    name handed to the base class. *)
Theorem DB2Source_from_proto_reads_to_proto
    (n q t : pystr) (p : CustomSourceOptions) (data_source : DataSourceProto.t) :
  wf_str n -> wf_str q -> wf_str t ->
  DB2Options_to_proto {| _name := PStr n; _query := PStr q; _table := PStr t |}
  = Ok p ->
  DataSourceProto.custom_options data_source = Some p ->
  let ts := Some (DataSourceProto.timestamp_field data_source) in
  let cts := Some (DataSourceProto.created_timestamp_column data_source) in
  let fm := Some (DataSourceProto.field_mapping data_source) in
  let desc := Some (DataSourceProto.description data_source) in
  let tags := Some (DataSourceProto.tags data_source) in
  let owner := Some (DataSourceProto.owner data_source) in
  DB2Source_from_proto data_source
  = DB2Source_init (Some (join_surrogates n)) (Some (join_surrogates q))
      (Some (join_surrogates t)) ts cts fm desc tags owner
  /\ (pair_free n = true -> pair_free q = true -> pair_free t = true ->
      n <> [] \/ t <> [] ->
      DB2Source_from_proto data_source
      = (base <- DataSource_init (match n with [] => t | _ => n end)
                   ts cts fm desc tags owner ;;
         Ok {| _db2_options :=
                 {| _name := PStr n; _query := PStr q; _table := PStr t |};
               super := base |})).
Proof.
  intros Hn Hq Ht Hp Hopt ts cts fm desc tags owner.
  destruct (DB2Options_to_proto_text n q t Hn Hq Ht) as [Htext _].
  cbv zeta in Htext. rewrite Htext in Hp.
  assert (Ep : p = {| configuration :=
                        json_dumps (options_dict
                          {| _name := PStr n; _query := PStr q; _table := PStr t |}) |})
    by congruence.
  clear Hp Htext. subst p.
  assert (Hcall : DB2Source_from_proto data_source
                  = DB2Source_init (Some (join_surrogates n))
                      (Some (join_surrogates q)) (Some (join_surrogates t))
                      ts cts fm desc tags owner).
  { unfold DB2Source_from_proto. rewrite Hopt. cbn [configuration].
    rewrite json_loads_bytes_options by assumption.
    rewrite json_loads_dumps_options by assumption. cbn [bind].
    reflexivity. }
  split; [exact Hcall|].
  intros Fn Fq Ft Hne. rewrite Hcall.
  rewrite !join_surrogates_pair_free by assumption.
  unfold DB2Source_init. cbn [of_optional]. unfold DB2Options_init.
  rewrite !py_or_str.
  destruct n as [|c n']; [|reflexivity].
  destruct t as [|d t']; [|reflexivity].
  destruct Hne; contradiction.
Qed.

(** X17.  [DB2Source.from_proto] checks the types that
    [DB2Options.from_proto] lets through: when the configuration is a JSON
    object with the three keys and one of their values is neither [null]
    nor a string, it raises [TypeError]. *)
Theorem DB2Source_from_proto_type_error
    (data_source : DataSourceProto.t) (p : CustomSourceOptions)
    (d : list (pystr * value)) (name query table : value) :
  DataSourceProto.custom_options data_source = Some p ->
  json_loads_bytes (configuration p) = Ok (PDict d) ->
  dict_get (lit "name") d = Some name ->
  dict_get (lit "query") d = Some query ->
  dict_get (lit "table") d = Some table ->
  check_optional_str name = Raise TypeError
  \/ check_optional_str query = Raise TypeError
  \/ check_optional_str table = Raise TypeError ->
  DB2Source_from_proto data_source = Raise TypeError.
Proof.
  intros Hopt Hloads H1 H2 H3 Hbad.
  unfold DB2Source_from_proto. rewrite Hopt, Hloads. cbn [bind].
  unfold getitem. rewrite H1, H2, H3. cbn [bind]. unfold DB2Source_call.
  assert (Hchk : forall v, check_optional_str v = Raise TypeError
                           \/ exists o, check_optional_str v = Ok o).
  { intros v. destruct v; cbn; eauto. }
  destruct (Hchk name) as [E1 | [o1 E1]]; rewrite E1; [reflexivity|].
  cbn [bind].
  destruct (Hchk query) as [E2 | [o2 E2]]; rewrite E2; [reflexivity|].
  cbn [bind].
  destruct (Hchk table) as [E3 | [o3 E3]]; rewrite E3; [reflexivity|].
  destruct Hbad as [B | [B | B]]; congruence.
Qed.

(** X18.  A configuration whose name and table are both [null] makes
    [DB2Source.from_proto] raise [DataSourceNoNameException]; the same
    message without its custom options makes it raise [AssertionError]. *)
Theorem DB2Source_from_proto_no_name
    (data_source : DataSourceProto.t) (p : CustomSourceOptions)
    (d : list (pystr * value)) (query : option pystr) :
  DataSourceProto.custom_options data_source = Some p ->
  json_loads_bytes (configuration p) = Ok (PDict d) ->
  dict_get (lit "name") d = Some PNone ->
  dict_get (lit "query") d = Some (of_optional query) ->
  dict_get (lit "table") d = Some PNone ->
  DB2Source_from_proto data_source = Raise DataSourceNoNameException
  /\ DB2Source_from_proto
       {| DataSourceProto.name := DataSourceProto.name data_source;
          DataSourceProto.field_mapping := DataSourceProto.field_mapping data_source;
          DataSourceProto.custom_options := None;
          DataSourceProto.timestamp_field := DataSourceProto.timestamp_field data_source;
          DataSourceProto.created_timestamp_column :=
            DataSourceProto.created_timestamp_column data_source;
          DataSourceProto.description := DataSourceProto.description data_source;
          DataSourceProto.tags := DataSourceProto.tags data_source;
          DataSourceProto.owner := DataSourceProto.owner data_source |}
     = Raise AssertionError.
Proof.
  intros Hopt Hloads H1 H2 H3. split; [|reflexivity].
  unfold DB2Source_from_proto. rewrite Hopt, Hloads. cbn [bind].
  unfold getitem. rewrite H1, H2, H3. cbn [bind]. unfold DB2Source_call.
  destruct query; reflexivity.
Qed.

End SourceFromProtoRuns.

(** ** UTF-8 written and read back *)

Lemma lor_small a b k :
  0 <= k -> 0 <= b < 2 ^ k -> a mod 2 ^ k = 0 -> Z.lor a b = a + b.
Proof.
  intros Hk Hb Ha.
  assert (E : a = (a / 2 ^ k) * 2 ^ k).
  { pose proof (Z.div_mod a (2 ^ k) ltac:(lia)). lia. }
  rewrite E. apply lor_mul_pow2_small; assumption.
Qed.

Lemma land_ones_small a k : 0 <= k -> Z.land a (2 ^ k - 1) = a mod 2 ^ k.
Proof.
  intros Hk. replace (2 ^ k - 1) with (Z.ones k)
    by (rewrite Z.ones_equiv; lia).
  apply Z.land_ones. exact Hk.
Qed.

(** Bit operations on small numbers, as division and remainder. *)
Ltac bits_to_arith :=
  change 0x3F with (2 ^ 6 - 1) in *; change 0x1F with (2 ^ 5 - 1) in *;
  change 0x0F with (2 ^ 4 - 1) in *; change 0x07 with (2 ^ 3 - 1) in *;
  rewrite ?land_ones_small, ?Z.shiftr_div_pow2, ?Z.shiftl_mul_pow2 by lia;
  change (2 ^ 3) with 8 in *; change (2 ^ 4) with 16 in *;
  change (2 ^ 5) with 32 in *; change (2 ^ 6) with 64 in *;
  change (2 ^ 12) with 4096 in *; change (2 ^ 18) with 262144 in *.

Lemma utf8_two_bytes c :
  0x80 <= c < 0x800 ->
  let b0 := Z.lor 0xC0 (Z.shiftr c 6) in
  let b1 := Z.lor 0x80 (Z.land c 0x3F) in
  b0 = 192 + c / 64 /\ b1 = 128 + c mod 64
  /\ Z.lor (Z.shiftl (Z.land b0 0x1F) 6) (Z.land b1 0x3F) = c.
Proof.
  intros Hc b0 b1. change 0x80 with 128 in *. change 0x800 with 2048 in *.
  assert (H0 : b0 = 192 + c / 64).
  { subst b0. bits_to_arith.
    apply (lor_small 192 (c / 64) 6); [lia| |reflexivity].
    change (2 ^ 6) with 64. Z.div_mod_to_equations. lia. }
  assert (H1 : b1 = 128 + c mod 64).
  { subst b1. bits_to_arith.
    apply (lor_small 128 (c mod 64) 6); [lia| |reflexivity].
    change (2 ^ 6) with 64. Z.div_mod_to_equations. lia. }
  split; [exact H0|]. split; [exact H1|].
  rewrite H0, H1. bits_to_arith.
  replace ((192 + c / 64) mod 32) with (c / 64) by (Z.div_mod_to_equations; lia).
  replace ((128 + c mod 64) mod 64) with (c mod 64) by (Z.div_mod_to_equations; lia).
  rewrite (lor_small (c / 64 * 64) (c mod 64) 6);
    [Z.div_mod_to_equations; lia | lia
    | change (2 ^ 6) with 64; Z.div_mod_to_equations; lia
    | change (2 ^ 6) with 64; Z.div_mod_to_equations; lia].
Qed.

Lemma utf8_three_bytes c :
  0x800 <= c < 0x10000 ->
  let b0 := Z.lor 0xE0 (Z.shiftr c 12) in
  let b1 := Z.lor 0x80 (Z.land (Z.shiftr c 6) 0x3F) in
  let b2 := Z.lor 0x80 (Z.land c 0x3F) in
  b0 = 224 + c / 4096 /\ b1 = 128 + (c / 64) mod 64 /\ b2 = 128 + c mod 64
  /\ Z.lor (Z.shiftl (Z.land b0 0x0F) 12)
       (Z.lor (Z.shiftl (Z.land b1 0x3F) 6) (Z.land b2 0x3F)) = c.
Proof.
  intros Hc b0 b1 b2. change 0x800 with 2048 in *. change 0x10000 with 65536 in *.
  assert (H0 : b0 = 224 + c / 4096).
  { subst b0. bits_to_arith.
    apply (lor_small 224 (c / 4096) 4); [lia| |reflexivity].
    change (2 ^ 4) with 16. Z.div_mod_to_equations. lia. }
  assert (H1 : b1 = 128 + (c / 64) mod 64).
  { subst b1. bits_to_arith.
    apply (lor_small 128 ((c / 64) mod 64) 6); [lia| |reflexivity].
    change (2 ^ 6) with 64. Z.div_mod_to_equations. lia. }
  assert (H2 : b2 = 128 + c mod 64).
  { subst b2. bits_to_arith.
    apply (lor_small 128 (c mod 64) 6); [lia| |reflexivity].
    change (2 ^ 6) with 64. Z.div_mod_to_equations. lia. }
  repeat (split; [assumption|]).
  rewrite H0, H1, H2. bits_to_arith.
  replace ((224 + c / 4096) mod 16) with (c / 4096)
    by (Z.div_mod_to_equations; lia).
  replace ((128 + (c / 64) mod 64) mod 64) with ((c / 64) mod 64)
    by (Z.div_mod_to_equations; lia).
  replace ((128 + c mod 64) mod 64) with (c mod 64)
    by (Z.div_mod_to_equations; lia).
  rewrite (lor_small ((c / 64) mod 64 * 64) (c mod 64) 6);
    [ | lia
      | change (2 ^ 6) with 64; Z.div_mod_to_equations; lia
      | change (2 ^ 6) with 64; Z.div_mod_to_equations; lia].
  rewrite (lor_small (c / 4096 * 4096) ((c / 64) mod 64 * 64 + c mod 64) 12);
    [ Z.div_mod_to_equations; lia | lia
      | change (2 ^ 12) with 4096; Z.div_mod_to_equations; lia
      | change (2 ^ 12) with 4096; Z.div_mod_to_equations; lia].
Qed.

Lemma utf8_four_bytes c :
  0x10000 <= c <= 0x10FFFF ->
  let b0 := Z.lor 0xF0 (Z.shiftr c 18) in
  let b1 := Z.lor 0x80 (Z.land (Z.shiftr c 12) 0x3F) in
  let b2 := Z.lor 0x80 (Z.land (Z.shiftr c 6) 0x3F) in
  let b3 := Z.lor 0x80 (Z.land c 0x3F) in
  b0 = 240 + c / 262144 /\ b1 = 128 + (c / 4096) mod 64
  /\ b2 = 128 + (c / 64) mod 64 /\ b3 = 128 + c mod 64
  /\ Z.lor (Z.shiftl (Z.land b0 0x07) 18)
       (Z.lor (Z.shiftl (Z.land b1 0x3F) 12)
          (Z.lor (Z.shiftl (Z.land b2 0x3F) 6) (Z.land b3 0x3F))) = c.
Proof.
  intros Hc b0 b1 b2 b3.
  change 0x10000 with 65536 in *. change 0x10FFFF with 1114111 in *.
  assert (H0 : b0 = 240 + c / 262144).
  { subst b0. bits_to_arith.
    apply (lor_small 240 (c / 262144) 3); [lia| |reflexivity].
    change (2 ^ 3) with 8. Z.div_mod_to_equations. lia. }
  assert (H1 : b1 = 128 + (c / 4096) mod 64).
  { subst b1. bits_to_arith.
    apply (lor_small 128 ((c / 4096) mod 64) 6); [lia| |reflexivity].
    change (2 ^ 6) with 64. Z.div_mod_to_equations. lia. }
  assert (H2 : b2 = 128 + (c / 64) mod 64).
  { subst b2. bits_to_arith.
    apply (lor_small 128 ((c / 64) mod 64) 6); [lia| |reflexivity].
    change (2 ^ 6) with 64. Z.div_mod_to_equations. lia. }
  assert (H3 : b3 = 128 + c mod 64).
  { subst b3. bits_to_arith.
    apply (lor_small 128 (c mod 64) 6); [lia| |reflexivity].
    change (2 ^ 6) with 64. Z.div_mod_to_equations. lia. }
  repeat (split; [assumption|]).
  rewrite H0, H1, H2, H3. bits_to_arith.
  replace ((240 + c / 262144) mod 8) with (c / 262144)
    by (Z.div_mod_to_equations; lia).
  replace ((128 + (c / 4096) mod 64) mod 64) with ((c / 4096) mod 64)
    by (Z.div_mod_to_equations; lia).
  replace ((128 + (c / 64) mod 64) mod 64) with ((c / 64) mod 64)
    by (Z.div_mod_to_equations; lia).
  replace ((128 + c mod 64) mod 64) with (c mod 64)
    by (Z.div_mod_to_equations; lia).
  rewrite (lor_small ((c / 64) mod 64 * 64) (c mod 64) 6);
    [ | lia
      | change (2 ^ 6) with 64; Z.div_mod_to_equations; lia
      | change (2 ^ 6) with 64; Z.div_mod_to_equations; lia].
  rewrite (lor_small ((c / 4096) mod 64 * 4096)
             ((c / 64) mod 64 * 64 + c mod 64) 12);
    [ | lia
      | change (2 ^ 12) with 4096; Z.div_mod_to_equations; lia
      | change (2 ^ 12) with 4096; Z.div_mod_to_equations; lia].
  rewrite (lor_small (c / 262144 * 262144)
             ((c / 4096) mod 64 * 4096 + ((c / 64) mod 64 * 64 + c mod 64)) 18);
    [ Z.div_mod_to_equations; lia | lia
      | change (2 ^ 18) with 262144; Z.div_mod_to_equations; lia
      | change (2 ^ 18) with 262144; Z.div_mod_to_equations; lia].
Qed.

Lemma utf8_round_trip_step c s b :
  wf_char c -> in_range 0xD800 0xDFFF c = false ->
  utf8_encode s = Ok b -> utf8_decode b = Ok s ->
  exists b', utf8_encode (c :: s) = Ok b' /\ utf8_decode b' = Ok (c :: s).
Proof.
  unfold wf_char. intros Hc Hsur Henc Hdec.
  unfold in_range in Hsur. apply andb_false_iff in Hsur.
  rewrite !Z.leb_gt in Hsur.
  change 0x10FFFF with 1114111 in *. change 0xD800 with 55296 in *.
  change 0xDFFF with 57343 in *.
  cbn [utf8_encode]. rewrite Henc. cbn [append_bytes bind].
  destruct (Z.ltb_spec c 0x80) as [H1|H1]; change 0x80 with 128 in H1.
  { eexists. split; [reflexivity|]. cbn [app utf8_decode].
    replace (in_range 0 0x7F c) with true
      by (symmetry; unfold in_range; apply andb_true_iff; split;
          apply Z.leb_le; change 0x7F with 127; lia).
    rewrite Hdec. reflexivity. }
  destruct (Z.ltb_spec c 0x800) as [H2|H2]; change 0x800 with 2048 in H2.
  { eexists. split; [reflexivity|]. cbn [app utf8_decode].
    destruct (utf8_two_bytes c ltac:(change 0x80 with 128; change 0x800 with 2048; lia))
      as (E0 & E1 & Ev).
    rewrite Ev. rewrite E0, E1.
    change 0x7F with 127. change 0xC2 with 194. change 0xDF with 223.
    replace (in_range 0 127 (192 + c / 64)) with false
      by (symmetry; unfold in_range; apply andb_false_iff; right;
          apply Z.leb_gt; Z.div_mod_to_equations; lia).
    replace (in_range 194 223 (192 + c / 64)) with true
      by (symmetry; unfold in_range; apply andb_true_iff; split;
          apply Z.leb_le; Z.div_mod_to_equations; lia).
    replace (is_cont (128 + c mod 64)) with true
      by (symmetry; unfold is_cont; change 0x80 with 128; change 0xBF with 191;
          apply andb_true_iff; split; apply Z.leb_le;
          Z.div_mod_to_equations; lia).
    rewrite Hdec. reflexivity. }
  replace (in_range 55296 57343 c) with false
    by (symmetry; unfold in_range; apply andb_false_iff;
        rewrite !Z.leb_gt; exact Hsur).
  destruct (Z.ltb_spec c 0x10000) as [H3|H3]; change 0x10000 with 65536 in H3.
  { eexists. split; [reflexivity|]. cbn [app utf8_decode].
    destruct (utf8_three_bytes c
                ltac:(change 0x800 with 2048; change 0x10000 with 65536; lia))
      as (E0 & E1 & E2 & Ev).
    rewrite Ev. rewrite E0, E1, E2.
    change 0x7F with 127. change 0xC2 with 194. change 0xDF with 223.
    change 0xE0 with 224. change 0xEF with 239. change 0xED with 237.
    change 0xA0 with 160. change 0x9F with 159. change 0xBF with 191.
    change 0x80 with 128.
    replace (in_range 0 127 (224 + c / 4096)) with false
      by (symmetry; unfold in_range; apply andb_false_iff; right;
          apply Z.leb_gt; Z.div_mod_to_equations; lia).
    replace (in_range 194 223 (224 + c / 4096)) with false
      by (symmetry; unfold in_range; apply andb_false_iff; right;
          apply Z.leb_gt; Z.div_mod_to_equations; lia).
    replace (in_range 224 239 (224 + c / 4096)) with true
      by (symmetry; unfold in_range; apply andb_true_iff; split;
          apply Z.leb_le; Z.div_mod_to_equations; lia).
    replace (in_range (if 224 + c / 4096 =? 224 then 160 else 128)
               (if 224 + c / 4096 =? 237 then 159 else 191)
               (128 + (c / 64) mod 64)) with true
      by (symmetry; unfold in_range; apply andb_true_iff;
          destruct (Z.eqb_spec (224 + c / 4096) 224);
          destruct (Z.eqb_spec (224 + c / 4096) 237);
          split; apply Z.leb_le; Z.div_mod_to_equations; lia).
    replace (is_cont (128 + c mod 64)) with true
      by (symmetry; unfold is_cont; change 0x80 with 128; change 0xBF with 191;
          apply andb_true_iff; split; apply Z.leb_le;
          Z.div_mod_to_equations; lia).
    cbn [andb]. rewrite Hdec. reflexivity. }
  eexists. split; [reflexivity|]. cbn [app utf8_decode].
  destruct (utf8_four_bytes c
              ltac:(change 0x10000 with 65536; change 0x10FFFF with 1114111; lia))
    as (E0 & E1 & E2 & E3 & Ev).
  rewrite Ev. rewrite E0, E1, E2, E3.
  change 0x7F with 127. change 0xC2 with 194. change 0xDF with 223.
  change 0xE0 with 224. change 0xEF with 239. change 0xF0 with 240.
  change 0xF4 with 244. change 0x90 with 144. change 0x8F with 143.
  change 0xBF with 191. change 0x80 with 128.
  replace (in_range 0 127 (240 + c / 262144)) with false
    by (symmetry; unfold in_range; apply andb_false_iff; right;
        apply Z.leb_gt; Z.div_mod_to_equations; lia).
  replace (in_range 194 223 (240 + c / 262144)) with false
    by (symmetry; unfold in_range; apply andb_false_iff; right;
        apply Z.leb_gt; Z.div_mod_to_equations; lia).
  replace (in_range 224 239 (240 + c / 262144)) with false
    by (symmetry; unfold in_range; apply andb_false_iff; right;
        apply Z.leb_gt; Z.div_mod_to_equations; lia).
  replace (in_range 240 244 (240 + c / 262144)) with true
    by (symmetry; unfold in_range; apply andb_true_iff; split;
        apply Z.leb_le; Z.div_mod_to_equations; lia).
  replace (in_range (if 240 + c / 262144 =? 240 then 144 else 128)
             (if 240 + c / 262144 =? 244 then 143 else 191)
             (128 + (c / 4096) mod 64)) with true
    by (symmetry; unfold in_range; apply andb_true_iff;
        destruct (Z.eqb_spec (240 + c / 262144) 240);
        destruct (Z.eqb_spec (240 + c / 262144) 244);
        split; apply Z.leb_le; Z.div_mod_to_equations; lia).
  replace (is_cont (128 + (c / 64) mod 64)) with true
    by (symmetry; unfold is_cont; change 0x80 with 128; change 0xBF with 191;
        apply andb_true_iff; split; apply Z.leb_le;
        Z.div_mod_to_equations; lia).
  replace (is_cont (128 + c mod 64)) with true
    by (symmetry; unfold is_cont; change 0x80 with 128; change 0xBF with 191;
        apply andb_true_iff; split; apply Z.leb_le;
        Z.div_mod_to_equations; lia).
  cbn [andb]. rewrite Hdec. reflexivity.
Qed.

(** X19.  [str.encode()] and [bytes.decode("utf8")] are inverse to each
    other where the first is defined: a string without surrogates has a
    UTF-8 encoding, which decodes to the string, and a string with a
    surrogate has none, [encode] raising [UnicodeEncodeError]. *)
Theorem utf8_encode_decode (s : pystr) :
  wf_str s ->
  (Forall (fun c => in_range 0xD800 0xDFFF c = false) s ->
   exists b, utf8_encode s = Ok b /\ utf8_decode b = Ok s)
  /\ (Exists (fun c => in_range 0xD800 0xDFFF c = true) s ->
      utf8_encode s = Raise UnicodeEncodeError).
Proof.
  intros Hs. split.
  - intros Hfree. induction Hs as [|c t Hc Ht IH].
    + exists []. split; reflexivity.
    + inversion Hfree as [|c' t' Hcf Htf]; subst.
      destruct (IH Htf) as (b & Henc & Hdec).
      exact (utf8_round_trip_step c t b Hc Hcf Henc Hdec).
  - intros Hex. induction Hs as [|c t Hc Ht IH]; [inversion Hex|].
    cbn [utf8_encode].
    destruct (in_range 0xD800 0xDFFF c) eqn:E.
    + unfold in_range in E. apply andb_true_iff in E. rewrite !Z.leb_le in E.
      change 0xD800 with 55296 in E.
      destruct (Z.ltb_spec c 0x80); [change 0x80 with 128 in *; lia|].
      destruct (Z.ltb_spec c 0x800); [change 0x800 with 2048 in *; lia|].
      reflexivity.
    + inversion Hex as [c' t' Hsur | c' t' Hrest]; subst; [congruence|].
      rewrite (IH Hrest).
      destruct (c <? 0x80); [reflexivity|].
      destruct (c <? 0x800); [reflexivity|].
      destruct (c <? 0x10000); reflexivity.
Qed.

(** ** The two readers of the configuration *)

Section TwoReaders.
Context {RT : PyRuntime} {Base : DataSourceBase}.

Lemma check_optional_str_of_optional (v : value) (o : option pystr) :
  check_optional_str v = Ok o -> of_optional o = v.
Proof.
  destruct v; cbn; intros H; try discriminate; injection H as <-; reflexivity.
Qed.

(** X20.  The two readers agree: when [DB2Source.from_proto] builds a
    source from a configuration of ASCII bytes without a zero byte, the
    options of that source are the record [DB2Options.from_proto] reads
    from the same configuration. *)
Theorem DB2Source_from_proto_options
    (data_source : DataSourceProto.t) (p : CustomSourceOptions) (src : DB2Source) :
  DataSourceProto.custom_options data_source = Some p ->
  Forall (fun c => 1 <= c <= 127) (configuration p) ->
  DB2Source_from_proto data_source = Ok src ->
  DB2Options_from_proto p = Ok (_db2_options src).
Proof.
  intros Hopt Hascii H. unfold DB2Source_from_proto in H. rewrite Hopt in H.
  rewrite json_loads_bytes_ascii_text in H by exact Hascii.
  unfold DB2Options_from_proto.
  rewrite utf8_decode_ascii
    by (eapply Forall_impl; [|exact Hascii]; unfold ascii_char; intros; cbv beta; lia).
  cbn [bind].
  destruct (json_loads (configuration p)) as [config|]; [|discriminate].
  cbn [bind] in *.
  destruct (getitem config (lit "name")) as [name|]; [|discriminate].
  cbn [bind] in *.
  destruct (getitem config (lit "query")) as [query|]; [|discriminate].
  cbn [bind] in *.
  destruct (getitem config (lit "table")) as [table|]; [|discriminate].
  cbn [bind] in *. unfold DB2Source_call in H.
  destruct (check_optional_str name) as [name'|] eqn:E1; [|discriminate].
  cbn [bind] in H.
  destruct (check_optional_str query) as [query'|] eqn:E2; [|discriminate].
  cbn [bind] in H.
  destruct (check_optional_str table) as [table'|] eqn:E3; [|discriminate].
  cbn [bind] in H.
  apply DB2Source_init_options in H. rewrite H.
  rewrite (check_optional_str_of_optional _ _ E1),
          (check_optional_str_of_optional _ _ E2),
          (check_optional_str_of_optional _ _ E3).
  reflexivity.
Qed.

End TwoReaders.
(** ** Runs on concrete inputs *)

#[local] Existing Instance text_runtime.
#[local] Existing Instance keeping_base.
#[local] Existing Instance one_table_driver.

(** The round trip of C1 on a name, a query and an empty table. *)
Lemma DB2Options_round_trip_run :
  (wf_str (lit "driver_stats") /\ wf_str (lit "select * from t where a = 'x'")
   /\ wf_str []
   /\ pair_free (lit "driver_stats") = true
   /\ pair_free (lit "select * from t where a = 'x'") = true
   /\ pair_free [] = true)
  /\ exists p,
      DB2Options_to_proto
        {| _name := PStr (lit "driver_stats");
           _query := PStr (lit "select * from t where a = 'x'");
           _table := PStr [] |} = Ok p
      /\ utf8_decode (configuration p)
         = Ok (json_dumps
                 (options_dict
                    {| _name := PStr (lit "driver_stats");
                       _query := PStr (lit "select * from t where a = 'x'");
                       _table := PStr [] |}))
      /\ DB2Options_from_proto p
         = Ok {| _name := PStr (lit "driver_stats");
                 _query := PStr (lit "select * from t where a = 'x'");
                 _table := PStr [] |}.
Proof.
  split.
  - repeat split; try reflexivity; concrete_wf.
  - apply (DB2Options_round_trip (lit "driver_stats")
             (lit "select * from t where a = 'x'") []);
      try reflexivity; concrete_wf.
Defined.

(** C1 as stated fails: a name made of a high surrogate and a low
    surrogate, two characters, comes back as the one character U+1F600. *)
Lemma DB2Options_round_trip_joins_surrogates :
  wf_str [0xd83d; 0xde00]
  /\ exists y,
      (p <- DB2Options_to_proto
              {| _name := PStr [0xd83d; 0xde00]; _query := PStr [];
                 _table := PStr [] |} ;;
       DB2Options_from_proto p) = Ok y
      /\ _name y = PStr [0x1f600]
      /\ _name y <> PStr [0xd83d; 0xde00].
Proof.
  split; [concrete_wf|].
  exists {| _name := PStr [0x1f600]; _query := PStr []; _table := PStr [] |}.
  split; [vm_compute; reflexivity|]. split; [reflexivity | discriminate].
Qed.

(** C2 on a table named [driver_stats]. *)
Lemma DB2Source_init_name_from_table_run :
  lit "driver_stats" <> []
  /\ DB2Source_init None None None (Some []) (Some []) None (Some []) None (Some [])
     = Raise DataSourceNoNameException
  /\ DB2Source_init None None (Some (lit "driver_stats"))
       (Some []) (Some []) None (Some []) None (Some [])
     = Ok {| _db2_options :=
               {| _name := PStr []; _query := PStr [];
                  _table := PStr (lit "driver_stats") |};
             super :=
               {| kept_name := lit "driver_stats";
                  kept_timestamp_field := Some [];
                  kept_created_timestamp_column := Some [];
                  kept_field_mapping := None;
                  kept_description := Some [];
                  kept_tags := None;
                  kept_owner := Some [] |} |}.
Proof.
  split; [discriminate|].
  exact (DB2Source_init_name_from_table (lit "driver_stats") None
           (Some []) (Some []) None (Some []) None (Some [])
           ltac:(discriminate)).
Defined.

(** C2 as stated fails: with no name and the empty string as table the
    constructor raises [AssertionError]. *)
Lemma DB2Source_init_empty_table_fails :
  DB2Source_init None None (Some []) (Some []) (Some []) None (Some []) None (Some [])
  = Raise AssertionError.
Proof. reflexivity. Qed.

(** C3 on two sources built alike. *)
Lemma DB2Source_eq_true_iff_run :
  let a := {| _db2_options :=
                {| _name := PStr (lit "stats"); _query := PStr (lit "select 1");
                   _table := PStr [] |};
              super :=
                {| kept_name := lit "stats";
                   kept_timestamp_field := Some (lit "ts");
                   kept_created_timestamp_column := Some (lit "created");
                   kept_field_mapping := None;
                   kept_description := Some [];
                   kept_tags := None;
                   kept_owner := Some [] |} |} in
  (_query (_db2_options a) = PStr (lit "select 1")
   /\ _query (_db2_options a) = PStr (lit "select 1"))
  /\ (DB2Source_eq a (ObjDB2Source a) = Ok true
      <-> DataSource_eq (super a) (super a) = true
          /\ lit "select 1" = lit "select 1"
          /\ py_eq (timestamp_field (super a)) (timestamp_field (super a)) = true
          /\ py_eq (created_timestamp_column (super a))
                   (created_timestamp_column (super a)) = true
          /\ py_eq (field_mapping (super a)) (field_mapping (super a)) = true).
Proof.
  intros a. split; [split; reflexivity|].
  exact (DB2Source_eq_true_iff a a (lit "select 1") (lit "select 1")
           eq_refl eq_refl).
Defined.

(** C3 as stated fails: two sources built with the same name, query and
    timestamp fields and different field mappings are not equal. *)
Lemma DB2Source_eq_reads_field_mapping :
  exists a b,
    DB2Source_init (Some (lit "stats")) (Some (lit "select 1")) None
      (Some (lit "ts")) (Some (lit "created")) None (Some []) None (Some [])
    = Ok a
    /\ DB2Source_init (Some (lit "stats")) (Some (lit "select 1")) None
         (Some (lit "ts")) (Some (lit "created"))
         (Some [(lit "col", lit "feature")]) (Some []) None (Some [])
       = Ok b
    /\ _query (_db2_options a) = _query (_db2_options b)
    /\ timestamp_field (super a) = timestamp_field (super b)
    /\ created_timestamp_column (super a) = created_timestamp_column (super b)
    /\ DB2Source_eq a (ObjDB2Source b) = Ok false.
Proof.
  eexists. eexists.
  split; [reflexivity|]. split; [reflexivity|].
  repeat split.
Qed.

(** C4 on a configuration that has a name and nothing else. *)
Lemma DB2Options_three_keys_run :
  let p := {| configuration :=
                json_dumps (PDict [(lit "name", PStr (lit "stats"))]) |} in
  (wf_str (lit "stats") /\ wf_str (lit "select 1") /\ wf_str (lit "tbl")
   /\ utf8_decode (configuration p)
      = Ok (json_dumps (PDict [(lit "name", PStr (lit "stats"))]))
   /\ json_loads (json_dumps (PDict [(lit "name", PStr (lit "stats"))]))
      = Ok (PDict [(lit "name", PStr (lit "stats"))]))
  /\ (exists p' text' vn vq vt,
         DB2Options_to_proto
           {| _name := PStr (lit "stats"); _query := PStr (lit "select 1");
              _table := PStr (lit "tbl") |} = Ok p'
         /\ utf8_decode (configuration p') = Ok text'
         /\ json_loads text'
            = Ok (PDict [(lit "name", PStr vn); (lit "query", PStr vq);
                         (lit "table", PStr vt)]))
  /\ DB2Options_from_proto p = Raise (KeyError (lit "query")).
Proof.
  intros p.
  assert (H1 : wf_str (lit "stats")) by concrete_wf.
  assert (H2 : wf_str (lit "select 1")) by concrete_wf.
  assert (H3 : wf_str (lit "tbl")) by concrete_wf.
  split; [repeat split; try assumption; vm_compute; reflexivity|].
  exact (DB2Options_three_keys (lit "stats") (lit "select 1") (lit "tbl") p
           (json_dumps (PDict [(lit "name", PStr (lit "stats"))]))
           [(lit "name", PStr (lit "stats"))]
           H1 H2 H3 eq_refl eq_refl).
Defined.

(** C5 on a source given both a query and a table. *)
Lemma get_table_query_string_forms_run :
  let self := {| _db2_options :=
                   {| _name := PStr (lit "stats"); _query := PStr (lit "select 1");
                      _table := PStr (lit "tbl") |};
                 super :=
                   {| kept_name := lit "stats";
                      kept_timestamp_field := Some [];
                      kept_created_timestamp_column := Some [];
                      kept_field_mapping := None;
                      kept_description := Some [];
                      kept_tags := None;
                      kept_owner := Some [] |} |} in
  DB2Source_init (Some (lit "stats")) (Some (lit "select 1")) (Some (lit "tbl"))
    (Some []) (Some []) None (Some []) None (Some []) = Ok self
  /\ get_table_query_string self = lit "tbl".
Proof.
  intros self. split; [reflexivity|].
  exact (get_table_query_string_forms (Some (lit "stats")) (Some (lit "select 1"))
           (Some (lit "tbl")) (Some []) (Some []) None (Some []) None (Some [])
           self eq_refl).
Defined.

(** C6 on a source configured by a query. *)
Lemma get_table_column_names_and_types_query_run :
  let self := {| _db2_options :=
                   {| _name := PStr (lit "stats"); _query := PStr (lit "select 1");
                      _table := PStr [] |};
                 super :=
                   {| kept_name := lit "stats";
                      kept_timestamp_field := Some [];
                      kept_created_timestamp_column := Some [];
                      kept_field_mapping := None;
                      kept_description := Some [];
                      kept_tags := None;
                      kept_owner := Some [] |} |} in
  let config := {| offline_store := tt |} in
  _get_conn (offline_store config) = Ok tt
  /\ snd (get_table_column_names_and_types self config [])
     = [lit "SELECT * FROM ((select 1)) AS sub LIMIT 0"]
  /\ fst (get_table_column_names_and_types self config [])
     = Ok [(lit "id", Ok (lit "integer"));
           (lit "ts", Ok (lit "timestamp without time zone"))].
Proof.
  intros self config. split; [reflexivity|].
  exact (get_table_column_names_and_types_query self config tt [] eq_refl).
Defined.

(** C7 on a table named [saved_rows]. *)
Lemma SavedDatasetDB2Storage_round_trip_run :
  let s := SavedDatasetDB2Storage_init (PStr (lit "saved_rows")) in
  wf_str (lit "saved_rows")
  /\ _table (db2_options s) = PStr (lit "saved_rows")
  /\ (pair_free (lit "saved_rows") = true ->
      exists p, SavedDatasetDB2Storage_to_proto s = Ok p
                /\ SavedDatasetDB2Storage_from_proto p = Ok s)
  /\ (lit "saved_rows" <> [] ->
      to_data_source s
      = Ok {| _db2_options :=
                {| _name := PStr []; _query := PStr [];
                   _table := PStr (lit "saved_rows") |};
              super :=
                {| kept_name := lit "saved_rows";
                   kept_timestamp_field := Some [];
                   kept_created_timestamp_column := Some [];
                   kept_field_mapping := None;
                   kept_description := Some [];
                   kept_tags := None;
                   kept_owner := Some [] |} |}).
Proof.
  intros s.
  assert (H : wf_str (lit "saved_rows")) by concrete_wf.
  split; [exact H|].
  exact (SavedDatasetDB2Storage_round_trip (lit "saved_rows") H).
Defined.

(** C7 as stated fails twice: a descriptor built from the empty string has
    no data source, the constructor raising [AssertionError]; and a table
    reference made of a high and a low surrogate comes back from the
    envelope as one character. *)
Lemma SavedDatasetDB2Storage_round_trip_fails :
  to_data_source (SavedDatasetDB2Storage_init (PStr [])) = Raise AssertionError
  /\ exists s',
      (p <- SavedDatasetDB2Storage_to_proto
              (SavedDatasetDB2Storage_init (PStr [0xd83d; 0xde00])) ;;
       SavedDatasetDB2Storage_from_proto p) = Ok s'
      /\ _table (db2_options s') = PStr [0x1f600]
      /\ _table (db2_options s') <> PStr [0xd83d; 0xde00].
Proof.
  split; [reflexivity|].
  exists (SavedDatasetDB2Storage_init (PStr [0x1f600])).
  split; [vm_compute; reflexivity|]. split; [reflexivity | discriminate].
Qed.

(** C9 on a configuration whose name is [null] and whose query is [0]. *)
Lemma DB2Options_never_None_run :
  let p := {| configuration :=
                json_dumps (PDict [(lit "name", PNone); (lit "query", PInt 0);
                                   (lit "table", PStr (lit "tbl"))]) |} in
  let o := {| _name := PStr []; _query := PStr []; _table := PStr (lit "tbl") |} in
  DB2Options_from_proto p = Ok o
  /\ _name o <> PNone /\ _query o <> PNone /\ _table o <> PNone.
Proof.
  intros p o.
  assert (H : DB2Options_from_proto p = Ok o) by (vm_compute; reflexivity).
  split; [exact H|].
  exact (proj2 (proj2 (proj2
           (DB2Options_never_None PNone PNone PNone None None None p o H)))).
Defined.

(** ** Runs of the further properties *)

Ltac concrete_forall :=
  match goal with
  | |- Forall _ ?l =>
    let l' := eval vm_compute in l in
    change l with l'
  end;
  repeat (apply Forall_cons; [cbv beta; lia|]); apply Forall_nil.

(** X1 on a name, a query and an empty table. *)
Lemma DB2Options_round_trip_exact_iff_run :
  (wf_str (lit "stats") /\ wf_str (lit "select 1") /\ wf_str [])
  /\ ((p <- DB2Options_to_proto
              {| _name := PStr (lit "stats"); _query := PStr (lit "select 1");
                 _table := PStr [] |} ;;
       DB2Options_from_proto p)
      = Ok {| _name := PStr (lit "stats"); _query := PStr (lit "select 1");
              _table := PStr [] |}
      <-> pair_free (lit "stats") = true /\ pair_free (lit "select 1") = true
          /\ pair_free [] = true).
Proof.
  assert (H1 : wf_str (lit "stats")) by concrete_wf.
  assert (H2 : wf_str (lit "select 1")) by concrete_wf.
  assert (H3 : wf_str []) by constructor.
  split; [auto|].
  exact (DB2Options_round_trip_exact_iff (lit "stats") (lit "select 1") [] H1 H2 H3).
Defined.

(** X2 on a name that holds a surrogate pair. *)
Lemma DB2Options_round_trip_stable_run :
  (wf_str [0xd83d; 0xde00] /\ wf_str (lit "select 1") /\ wf_str [])
  /\ exists y,
      (p <- DB2Options_to_proto
              {| _name := PStr [0xd83d; 0xde00]; _query := PStr (lit "select 1");
                 _table := PStr [] |} ;;
       DB2Options_from_proto p) = Ok y
      /\ (p <- DB2Options_to_proto y ;; DB2Options_from_proto p) = Ok y.
Proof.
  assert (H1 : wf_str [0xd83d; 0xde00]) by concrete_wf.
  assert (H2 : wf_str (lit "select 1")) by concrete_wf.
  assert (H3 : wf_str []) by constructor.
  split; [auto|].
  exact (DB2Options_round_trip_stable [0xd83d; 0xde00] (lit "select 1") [] H1 H2 H3).
Defined.

(** X3 on a name with a character beyond ASCII and a line break. *)
Lemma DB2Options_to_proto_printable_run :
  (wf_str [0xe9; 10; 0x1f600] /\ wf_str (lit "select 1") /\ wf_str [])
  /\ exists p,
      DB2Options_to_proto
        {| _name := PStr [0xe9; 10; 0x1f600]; _query := PStr (lit "select 1");
           _table := PStr [] |} = Ok p
      /\ Forall printable (configuration p).
Proof.
  assert (H1 : wf_str [0xe9; 10; 0x1f600]) by concrete_wf.
  assert (H2 : wf_str (lit "select 1")) by concrete_wf.
  assert (H3 : wf_str []) by constructor.
  split; [auto|].
  exact (DB2Options_to_proto_printable [0xe9; 10; 0x1f600] (lit "select 1") []
           H1 H2 H3).
Defined.

(** X5 on a configuration that is a JSON list. *)
Lemma DB2Options_from_proto_not_object_run :
  let text := json_dumps (PList [PInt 1; PInt 2]) in
  let p := {| configuration := text |} in
  (utf8_decode (configuration p) = Ok text
   /\ json_loads text = Ok (PList [PInt 1; PInt 2])
   /\ forall d, (PList [PInt 1; PInt 2] : value) <> PDict d)
  /\ DB2Options_from_proto p = Raise TypeError.
Proof.
  intros text p.
  assert (H3 : forall d : list (pystr * value), PList [PInt 1; PInt 2] <> PDict d)
    by (intros d; discriminate).
  split; [split; [reflexivity | split; [reflexivity | exact H3]]|].
  exact (DB2Options_from_proto_not_object p text (PList [PInt 1; PInt 2])
           eq_refl eq_refl H3).
Defined.

(** X6 on a configuration of a space and a line break. *)
Lemma DB2Options_from_proto_blank_run :
  Forall (fun c => is_ws c = true) [32; 10]
  /\ DB2Options_from_proto {| configuration := [32; 10] |} = Raise JSONDecodeError.
Proof.
  assert (H : Forall (fun c => is_ws c = true) [32; 10])
    by (repeat constructor).
  split; [exact H|].
  exact (DB2Options_from_proto_blank {| configuration := [32; 10] |} H).
Defined.

(** X7 on a name, and on an empty name beside a table. *)
Lemma DB2Source_init_name_precedence_run :
  (lit "stats" <> [] /\ lit "tbl" <> [])
  /\ DB2Source_init (Some (lit "stats")) None (Some (lit "other")) (Some [])
       (Some []) None (Some []) None (Some [])
     = Ok {| _db2_options :=
               {| _name := PStr (lit "stats"); _query := PStr [];
                  _table := PStr (lit "other") |};
             super :=
               {| kept_name := lit "stats";
                  kept_timestamp_field := Some [];
                  kept_created_timestamp_column := Some [];
                  kept_field_mapping := None;
                  kept_description := Some [];
                  kept_tags := None;
                  kept_owner := Some [] |} |}
  /\ DB2Source_init (Some []) None (Some (lit "tbl")) (Some [])
       (Some []) None (Some []) None (Some [])
     = Ok {| _db2_options :=
               {| _name := PStr []; _query := PStr [];
                  _table := PStr (lit "tbl") |};
             super :=
               {| kept_name := lit "tbl";
                  kept_timestamp_field := Some [];
                  kept_created_timestamp_column := Some [];
                  kept_field_mapping := None;
                  kept_description := Some [];
                  kept_tags := None;
                  kept_owner := Some [] |} |}.
Proof.
  split; [split; discriminate|].
  exact (DB2Source_init_name_precedence (lit "stats") (lit "tbl") None
           (Some (lit "other")) (Some []) (Some []) None (Some []) None (Some [])
           ltac:(discriminate) ltac:(discriminate)).
Defined.

(** X8 on a source built from a query and a name. *)
Lemma DB2Source_init_options_invariant_run :
  let self := {| _db2_options :=
                   {| _name := PStr (lit "stats"); _query := PStr (lit "select 1");
                      _table := PStr [] |};
                 super :=
                   {| kept_name := lit "stats";
                      kept_timestamp_field := Some [];
                      kept_created_timestamp_column := Some [];
                      kept_field_mapping := None;
                      kept_description := Some [];
                      kept_tags := None;
                      kept_owner := Some [] |} |} in
  DB2Source_init (Some (lit "stats")) (Some (lit "select 1")) None
    (Some []) (Some []) None (Some []) None (Some []) = Ok self
  /\ exists n q t,
      _db2_options self = {| _name := PStr n; _query := PStr q; _table := PStr t |}
      /\ (n <> [] \/ t <> []).
Proof.
  intros self. split; [reflexivity|].
  exact (DB2Source_init_options_invariant (Some (lit "stats"))
           (Some (lit "select 1")) None (Some []) (Some []) None (Some []) None
           (Some []) self eq_refl).
Defined.

(** X9 on a source built from a table. *)
Lemma metadata_statement_forms_run :
  let self := {| _db2_options :=
                   {| _name := PStr []; _query := PStr [];
                      _table := PStr (lit "tbl") |};
                 super :=
                   {| kept_name := lit "tbl";
                      kept_timestamp_field := Some [];
                      kept_created_timestamp_column := Some [];
                      kept_field_mapping := None;
                      kept_description := Some [];
                      kept_tags := None;
                      kept_owner := Some [] |} |} in
  let config := {| offline_store := tt |} in
  (DB2Source_init None None (Some (lit "tbl"))
     (Some []) (Some []) None (Some []) None (Some []) = Ok self
   /\ _get_conn (offline_store config) = Ok tt)
  /\ snd (get_table_column_names_and_types self config [])
     = [lit "SELECT * FROM (tbl) AS sub LIMIT 0"].
Proof.
  intros self config. split; [split; reflexivity|].
  exact (metadata_statement_forms None None (Some (lit "tbl"))
           (Some []) (Some []) None (Some []) None (Some [])
           self config tt [] eq_refl eq_refl).
Defined.

(** X11 on an envelope that holds a name, a query and a table. *)
Lemma SavedDatasetDB2Storage_from_proto_keeps_table_run :
  let storage_proto :=
    kind_custom_storage
      {| configuration :=
           json_dumps (PDict [(lit "name", PStr (lit "stats"));
                              (lit "query", PStr (lit "select 1"));
                              (lit "table", PStr (lit "tbl"))]) |} in
  let s := SavedDatasetDB2Storage_init (PStr (lit "tbl")) in
  SavedDatasetDB2Storage_from_proto storage_proto = Ok s
  /\ (_name (db2_options s) = PStr [] /\ _query (db2_options s) = PStr []
      /\ exists o, DB2Options_from_proto (custom_storage storage_proto) = Ok o
                   /\ _table (db2_options s) = _table o)
  /\ SavedDatasetDB2Storage_from_proto kind_other = Raise JSONDecodeError.
Proof.
  intros storage_proto s.
  assert (H : SavedDatasetDB2Storage_from_proto storage_proto = Ok s)
    by (vm_compute; reflexivity).
  split; [exact H|].
  exact (SavedDatasetDB2Storage_from_proto_keeps_table storage_proto s H).
Defined.

(** X12 on the number 5 as table reference. *)
Lemma to_data_source_needs_string_run :
  (forall s, (PInt 5 : value) <> PStr s)
  /\ to_data_source (SavedDatasetDB2Storage_init (PInt 5)) = Raise TypeError.
Proof.
  assert (H : forall s, (PInt 5 : value) <> PStr s) by (intros s; discriminate).
  split; [exact H|].
  exact (to_data_source_needs_string (PInt 5) H).
Defined.

(** X13 on a table named [saved_rows]. *)
Lemma to_data_source_reads_table_run :
  let src := {| _db2_options :=
                  {| _name := PStr []; _query := PStr [];
                     _table := PStr (lit "saved_rows") |};
                super :=
                  {| kept_name := lit "saved_rows";
                     kept_timestamp_field := Some [];
                     kept_created_timestamp_column := Some [];
                     kept_field_mapping := None;
                     kept_description := Some [];
                     kept_tags := None;
                     kept_owner := Some [] |} |} in
  (lit "saved_rows" <> []
   /\ to_data_source (SavedDatasetDB2Storage_init (PStr (lit "saved_rows"))) = Ok src)
  /\ get_table_query_string src = lit "saved_rows".
Proof.
  intros src. split; [split; [discriminate | reflexivity]|].
  exact (to_data_source_reads_table (lit "saved_rows") src
           ltac:(discriminate) eq_refl).
Defined.

(** X14 on two sources named alike over two tables. *)
Lemma DB2Source_eq_ignores_table_run :
  let base := {| kept_name := lit "stats";
                 kept_timestamp_field := Some [];
                 kept_created_timestamp_column := Some [];
                 kept_field_mapping := None;
                 kept_description := Some [];
                 kept_tags := None;
                 kept_owner := Some [] |} in
  let a := {| _db2_options :=
                {| _name := PStr (lit "stats"); _query := PStr [];
                   _table := PStr (lit "t1") |};
              super := base |} in
  let b := {| _db2_options :=
                {| _name := PStr (lit "stats"); _query := PStr [];
                   _table := PStr (lit "t2") |};
              super := base |} in
  (lit "stats" <> []
   /\ DB2Source_init (Some (lit "stats")) None (Some (lit "t1"))
        (Some []) (Some []) None (Some []) None (Some []) = Ok a
   /\ DB2Source_init (Some (lit "stats")) None (Some (lit "t2"))
        (Some []) (Some []) None (Some []) None (Some []) = Ok b)
  /\ DB2Source_eq a (ObjDB2Source b) = Ok true
  /\ DB2Source_eq b (ObjDB2Source a) = Ok true.
Proof.
  intros base a b.
  split; [split; [discriminate | split; reflexivity]|].
  exact (DB2Source_eq_ignores_table (lit "stats") None (Some (lit "t1"))
           (Some (lit "t2")) (Some []) (Some []) None (Some []) None (Some [])
           a b ltac:(discriminate) eq_refl eq_refl).
Defined.

(** X15 on the text of a small JSON object. *)
Lemma json_loads_bytes_ascii_run :
  let b := json_dumps (PDict [(lit "name", PStr (lit "stats"))]) in
  Forall (fun c => 1 <= c <= 127) b
  /\ json_loads_bytes b = Ok (PDict [(lit "name", PStr (lit "stats"))]).
Proof.
  intros b.
  assert (H : Forall (fun c => 1 <= c <= 127) b) by (subst b; concrete_forall).
  split; [exact H|].
  exact (json_loads_bytes_ascii b H).
Defined.

(** X16 on a message for a source over a table. *)
Lemma DB2Source_from_proto_reads_to_proto_run :
  let x := {| _name := PStr []; _query := PStr []; _table := PStr (lit "tbl") |} in
  let p := {| configuration := json_dumps (options_dict x) |} in
  let data_source :=
    {| DataSourceProto.name := lit "tbl";
       DataSourceProto.field_mapping := [];
       DataSourceProto.custom_options := Some p;
       DataSourceProto.timestamp_field := lit "ts";
       DataSourceProto.created_timestamp_column := [];
       DataSourceProto.description := [];
       DataSourceProto.tags := [];
       DataSourceProto.owner := [] |} in
  (wf_str [] /\ wf_str (lit "tbl")
   /\ DB2Options_to_proto x = Ok p
   /\ DataSourceProto.custom_options data_source = Some p
   /\ pair_free [] = true /\ pair_free (lit "tbl") = true
   /\ (([] : pystr) <> [] \/ lit "tbl" <> []))
  /\ DB2Source_from_proto data_source
     = Ok {| _db2_options := x;
             super :=
               {| kept_name := lit "tbl";
                  kept_timestamp_field := Some (lit "ts");
                  kept_created_timestamp_column := Some [];
                  kept_field_mapping := Some [];
                  kept_description := Some [];
                  kept_tags := Some [];
                  kept_owner := Some [] |} |}.
Proof.
  intros x p data_source.
  assert (H1 : wf_str []) by constructor.
  assert (H2 : wf_str (lit "tbl")) by concrete_wf.
  assert (H3 : DB2Options_to_proto x = Ok p) by (vm_compute; reflexivity).
  assert (H4 : ([] : pystr) <> [] \/ lit "tbl" <> []) by (right; discriminate).
  split.
  - repeat (split; [first [assumption | reflexivity]|]). exact H4.
  - exact (proj2 (DB2Source_from_proto_reads_to_proto [] [] (lit "tbl") p
                    data_source H1 H1 H2 H3 eq_refl)
             eq_refl eq_refl eq_refl H4).
Defined.

(** X17 on a configuration whose name is a number. *)
Lemma DB2Source_from_proto_type_error_run :
  let d := [(lit "name", PInt 5); (lit "query", PNone);
            (lit "table", PStr (lit "tbl"))] in
  let p := {| configuration := json_dumps (PDict d) |} in
  let data_source :=
    {| DataSourceProto.name := lit "tbl";
       DataSourceProto.field_mapping := [];
       DataSourceProto.custom_options := Some p;
       DataSourceProto.timestamp_field := [];
       DataSourceProto.created_timestamp_column := [];
       DataSourceProto.description := [];
       DataSourceProto.tags := [];
       DataSourceProto.owner := [] |} in
  (json_loads_bytes (configuration p) = Ok (PDict d)
   /\ check_optional_str (PInt 5 : value) = Raise TypeError)
  /\ DB2Source_from_proto data_source = Raise TypeError
  /\ DB2Options_from_proto p
     = Ok {| _name := PInt 5; _query := PStr []; _table := PStr (lit "tbl") |}.
Proof.
  intros d p data_source.
  assert (H : json_loads_bytes (configuration p) = Ok (PDict d))
    by (vm_compute; reflexivity).
  split; [split; [exact H | reflexivity]|].
  split; [|vm_compute; reflexivity].
  exact (DB2Source_from_proto_type_error data_source p d (PInt 5) PNone
           (PStr (lit "tbl")) eq_refl H eq_refl eq_refl eq_refl
           (or_introl eq_refl)).
Defined.

(** X18 on a configuration whose name and table are [null]. *)
Lemma DB2Source_from_proto_no_name_run :
  let d := [(lit "name", PNone); (lit "query", PStr (lit "select 1"));
            (lit "table", PNone)] in
  let p := {| configuration := json_dumps (PDict d) |} in
  let data_source :=
    {| DataSourceProto.name := [];
       DataSourceProto.field_mapping := [];
       DataSourceProto.custom_options := Some p;
       DataSourceProto.timestamp_field := [];
       DataSourceProto.created_timestamp_column := [];
       DataSourceProto.description := [];
       DataSourceProto.tags := [];
       DataSourceProto.owner := [] |} in
  json_loads_bytes (configuration p) = Ok (PDict d)
  /\ DB2Source_from_proto data_source = Raise DataSourceNoNameException.
Proof.
  intros d p data_source.
  assert (H : json_loads_bytes (configuration p) = Ok (PDict d))
    by (vm_compute; reflexivity).
  split; [exact H|].
  exact (proj1 (DB2Source_from_proto_no_name data_source p d
                  (Some (lit "select 1")) eq_refl H eq_refl eq_refl eq_refl)).
Defined.

(** X19 on a string of one, two, three and four byte characters. *)
Lemma utf8_encode_decode_run :
  wf_str [0x41; 0xe9; 0x20ac; 0x1f600]
  /\ exists b, utf8_encode [0x41; 0xe9; 0x20ac; 0x1f600] = Ok b
               /\ utf8_decode b = Ok [0x41; 0xe9; 0x20ac; 0x1f600].
Proof.
  assert (H : wf_str [0x41; 0xe9; 0x20ac; 0x1f600]) by concrete_wf.
  split; [exact H|].
  exact (proj1 (utf8_encode_decode [0x41; 0xe9; 0x20ac; 0x1f600] H)
           ltac:(repeat constructor)).
Defined.

(** X20 on a message for a source over a query. *)
Lemma DB2Source_from_proto_options_run :
  let x := {| _name := PStr (lit "stats"); _query := PStr (lit "select 1");
              _table := PStr [] |} in
  let p := {| configuration := json_dumps (options_dict x) |} in
  let data_source :=
    {| DataSourceProto.name := lit "stats";
       DataSourceProto.field_mapping := [];
       DataSourceProto.custom_options := Some p;
       DataSourceProto.timestamp_field := [];
       DataSourceProto.created_timestamp_column := [];
       DataSourceProto.description := [];
       DataSourceProto.tags := [];
       DataSourceProto.owner := [] |} in
  let src := {| _db2_options := x;
                super :=
                  {| kept_name := lit "stats";
                     kept_timestamp_field := Some [];
                     kept_created_timestamp_column := Some [];
                     kept_field_mapping := Some [];
                     kept_description := Some [];
                     kept_tags := Some [];
                     kept_owner := Some [] |} |} in
  (Forall (fun c => 1 <= c <= 127) (configuration p)
   /\ DB2Source_from_proto data_source = Ok src)
  /\ DB2Options_from_proto p = Ok (_db2_options src).
Proof.
  intros x p data_source src.
  assert (H1 : Forall (fun c => 1 <= c <= 127) (configuration p))
    by (subst p x; concrete_forall).
  assert (H2 : DB2Source_from_proto data_source = Ok src)
    by (vm_compute; reflexivity).
  split; [split; assumption|].
  exact (DB2Source_from_proto_options data_source p src eq_refl H1 H2).
Defined.
